(** * serve-functions: the local HTTP-to-function bridge of netlify-dev-plugin

    A shallow embedding of [src/utils/serve-functions.js] and the properties
    of its dispatcher, contract translator and invocation runner.

    Conventions of the embedding.
    - JavaScript values the code inspects are terms of [value]; an object is
      the list of its own enumerable properties in enumeration order.
    - JavaScript strings are [string]s (8-bit characters).
    - The HTTP response object is the list of operations performed on it, in
      program order ([resp_op]); [setHeader] and [write] throw where Node's
      do (a header it refuses, a status outside 100..999, headers after the
      head is out); console output is left out.
    - An exception is a value; the message of a TypeError that Node raises
      stands for Node's own wording.
    - What Node and the npm collaborators provide (number parsing, JWT
      decoding, the module loader, the filesystem) is a field of [Runtime]
      or [FileSystem]; nothing is assumed about those fields. *)

From Stdlib Require Import ZArith NArith Ascii Strings.Byte DecimalString.

#[local] Set Warnings "-register-all".
From stdpp Require Import gmap strings list.

(** ** JavaScript values *)

(** A number: the code only tests numbers for truthiness and copies them. *)
Inductive number : Type :=
| NaN
| Num (z : Z).

Inductive value : Type :=
| VUndefined
| VNull
| VBool (b : bool)
| VNumber (n : number)
| VString (s : string)
| VBuffer (bs : list byte)
| VFunction (f : nat)
| VBuiltin (name : string)
| VPromise (p : nat)
| VError (name message : string)
| VObject (props : list (string * value)).

(** [typeof v === "string"], [typeof v === "function"], [v instanceof Buffer] *)
Definition is_string (v : value) : bool :=
  match v with VString _ => true | _ => false end.

Definition is_function (v : value) : bool :=
  match v with VFunction _ | VBuiltin _ => true | _ => false end.

(** ToBoolean *)
Definition number_truthy (n : number) : bool :=
  match n with
  | NaN => false
  | Num z => negb (Z.eqb z 0)
  end.

Definition truthy (v : value) : bool :=
  match v with
  | VUndefined | VNull => false
  | VBool b => b
  | VNumber n => number_truthy n
  | VString s => negb (String.eqb s "")
  | VBuffer _ | VFunction _ | VBuiltin _ | VPromise _ | VError _ _
  | VObject _ => true
  end.

(** ** Base64 (RFC 4648), as [Buffer.prototype.toString("base64")] encodes
    and [Buffer.from(s, "base64")] decodes *)
Module Base64.

Definition byte_of (n : N) : byte :=
  match Byte.of_N n with
  | Some b => b
  | None => Byte.x00
  end.

(** The character of a 6-bit group: A-Z, a-z, 0-9, + and /. *)
Definition sextet_char (n : N) : ascii :=
  if (n <? 26)%N then ascii_of_N (n + 65)
  else if (n <? 52)%N then ascii_of_N (n + 71)
  else if (n <? 62)%N then ascii_of_N (n - 4)
  else if (n =? 62)%N then "+"%char
  else "/"%char.

(** The decoder's table accepts the URL-safe characters - and _ too. *)
Definition unbase64 (c : ascii) : option N :=
  let n := N_of_ascii c in
  if ((65 <=? n) && (n <=? 90))%N then Some (n - 65)%N
  else if ((97 <=? n) && (n <=? 122))%N then Some (n - 71)%N
  else if ((48 <=? n) && (n <=? 57))%N then Some (n + 4)%N
  else if ((n =? 43) || (n =? 45))%N then Some 62%N
  else if ((n =? 47) || (n =? 95))%N then Some 63%N
  else None.

Definition group3 (a b c : byte) : string :=
  let x := Byte.to_N a in
  let y := Byte.to_N b in
  let z := Byte.to_N c in
  String (sextet_char (x / 4))
    (String (sextet_char ((x mod 4) * 16 + y / 16))
       (String (sextet_char ((y mod 16) * 4 + z / 64))
          (String (sextet_char (z mod 64)) "")))%N.

Definition group2 (a b : byte) : string :=
  let x := Byte.to_N a in
  let y := Byte.to_N b in
  String (sextet_char (x / 4))
    (String (sextet_char ((x mod 4) * 16 + y / 16))
       (String (sextet_char ((y mod 16) * 4)) "="))%N.

Definition group1 (a : byte) : string :=
  let x := Byte.to_N a in
  String (sextet_char (x / 4))
    (String (sextet_char ((x mod 4) * 16)) "==")%N.

Fixpoint encode (bs : list byte) : string :=
  match bs with
  | [] => ""
  | [a] => group1 a
  | [a; b] => group2 a b
  | a :: b :: c :: rest => group3 a b c +:+ encode rest
  end.

(** Decoding is lenient: characters outside the table are skipped and the
    first = ends the input. *)
Fixpoint sextets (s : string) : list N :=
  match s with
  | EmptyString => []
  | String c s' =>
      match unbase64 c with
      | Some n => n :: sextets s'
      | None => if Ascii.eqb c "="%char then [] else sextets s'
      end
  end.

Definition out1 (s1 s2 : N) : byte := byte_of (s1 * 4 + s2 / 16)%N.
Definition out2 (s2 s3 : N) : byte := byte_of ((s2 mod 16) * 16 + s3 / 4)%N.
Definition out3 (s3 s4 : N) : byte := byte_of ((s3 mod 4) * 64 + s4)%N.

Fixpoint bytes_of_sextets (l : list N) : list byte :=
  match l with
  | s1 :: s2 :: s3 :: s4 :: rest =>
      out1 s1 s2 :: out2 s2 s3 :: out3 s3 s4 :: bytes_of_sextets rest
  | [s1; s2; s3] => [out1 s1 s2; out2 s2 s3]
  | [s1; s2] => [out1 s1 s2]
  | _ => []
  end.

Definition decode (s : string) : list byte := bytes_of_sextets (sextets s).

End Base64.

(** ** Strings: the [String.prototype] operations the code uses *)

Definition LF : ascii := ascii_of_N 10.
Definition CR : ascii := ascii_of_N 13.

(** The characters the regular-expression dot does not match. *)
Definition is_line_terminator (c : ascii) : bool :=
  Ascii.eqb c LF || Ascii.eqb c CR.

(** [s.split(sep)] for a one-character separator *)
Fixpoint split_on (sep : ascii) (s : string) : list string :=
  match s with
  | EmptyString => [EmptyString]
  | String c s' =>
      if Ascii.eqb c sep then EmptyString :: split_on sep s'
      else match split_on sep s' with
           | h :: t => String c h :: t
           | [] => [String c EmptyString]
           end
  end.

Fixpoint strip_prefix (p s : string) : option string :=
  match p, s with
  | EmptyString, _ => Some s
  | String a p', String b s' =>
      if Ascii.eqb a b then strip_prefix p' s' else None
  | String _ _, EmptyString => None
  end.

Fixpoint contains (c : ascii) (s : string) : bool :=
  match s with
  | EmptyString => false
  | String d s' => Ascii.eqb c d || contains c s'
  end.

(** [path.replace(/^\/.netlify\/functions/, "")] *)
Definition strip_functions_prefix (path : string) : string :=
  match path with
  | String a (String c rest) =>
      if Ascii.eqb a "/" && negb (is_line_terminator c) then
        match strip_prefix "netlify/functions" rest with
        | Some tail => tail
        | None => path
        end
      else path
  | _ => path
  end.

(** [file.replace(/\.js$/, "")] *)
Fixpoint strip_js_suffix (file : string) : string :=
  match file with
  | EmptyString => EmptyString
  | String c rest =>
      if String.eqb file ".js" then EmptyString
      else String c (strip_js_suffix rest)
  end.

Fixpoint take_line (s : string) : string :=
  match s with
  | EmptyString => EmptyString
  | String c s' =>
      if is_line_terminator c then EmptyString else String c (take_line s')
  end.

(** [url.split(/\?(.+)/)[1]]: the capture of the first match, if any *)
Fixpoint query_of (url : string) : option string :=
  match url with
  | EmptyString => None
  | String c rest =>
      if Ascii.eqb c "?" then
        match rest with
        | EmptyString => None
        | String d _ =>
            if is_line_terminator d then query_of rest
            else Some (take_line rest)
        end
      else query_of rest
  end.

(** ** Property access *)

Fixpoint lookup_prop {A} (k : string) (props : list (string * A)) : option A :=
  match props with
  | [] => None
  | (k', v) :: rest => if String.eqb k k' then Some v else lookup_prop k rest
  end.

(** [v.k], for a name [k] that no prototype defines: [None] is the TypeError
    of a read on null or undefined. *)
Definition get (v : value) (k : string) : option value :=
  match v with
  | VUndefined | VNull => None
  | VObject props => Some (default VUndefined (lookup_prop k props))
  | _ => Some VUndefined
  end.

Definition index_key (i : nat) : string :=
  NilEmpty.string_of_uint (Nat.to_uint i).

(** [promise && typeof promise.then === "function"] *)
Definition is_thenable (v : value) : bool :=
  match v with
  | VPromise _ => true
  | VObject props => is_function (default VUndefined (lookup_prop "then" props))
  | _ => false
  end.

(** ** Handlers, as far as the bridge can observe them *)

Inductive result (A : Type) : Type :=
| Ok (a : A)
| Throw (e : value).
Arguments Ok {A} a.
Arguments Throw {A} e.

Inductive settlement : Type :=
| Fulfilled (v : value)
| Rejected (reason : value).

Inductive event : Type :=
| CallbackCalled (err res : value)
| Settled (s : settlement).

(** What one call of [handler.handler(lambdaRequest, context, callback)] does
    with [callback] and its return value: the calls it makes before it
    returns, how it returns, and, in event-loop order, the calls it makes
    later and the settlement of the promise it returned. When a call of
    [callback] throws, a handler that returns a promise keeps the exception
    inside that promise, as an async function does, and makes no further
    call before it returns; any other handler lets the exception escape. *)
Record behaviour : Type := {
  sync_calls : list (value * value);
  returned : result value;
  later : list event
}.

(** ** The collaborators *)

Record Runtime : Type := {
  (** the log prefix of netlify-cli-logo *)
  NETLIFYDEVERR : string;
  (** [Number(s)] for a string *)
  StringToNumber : string -> number;
  (** [Number(v)] for an object or a function *)
  ObjectToNumber : value -> number;
  (** [String(v)] for a number, an object or a function *)
  ObjectToString : value -> string;
  (** jwt-decode; [None] when it throws *)
  jwtDecode : string -> option value;
  (** [querystring.parse] *)
  queryString_parse : option string -> value;
  (** [require.resolve] under the given [module.paths], Node's cache of
      resolved paths included (a path that has resolved once in the process
      keeps resolving); [None] when the module cannot be found *)
  require_resolve : list value -> string -> option string;
  (** evaluating the module file at a resolved path *)
  load_module : list value -> string -> result value;
  (** calling a function value with (lambdaRequest, context, callback) *)
  call : value -> value -> value -> behaviour;
  (** the modules that evaluating the file at a resolved path requires on
      its way, which Node caches whether the evaluation succeeds or throws *)
  loaded_along : list value -> string -> list (string * value);
  (** whether [response.setHeader(name, value)] accepts the name and the
      value (Node validates both) *)
  header_accepted : string -> value -> bool;
  (** the enumerable properties a Buffer inherits from its prototype *)
  Buffer_prototype : list (string * value)
}.

Record FileSystem : Type := {
  readdirSync : string -> list string;
  (** [path.resolve(path.join(dir, file))] *)
  resolve_join : string -> string -> string;
  extname : string -> string;
  isDirectory : string -> bool;
  (** ./finders: a falsy result is [None] *)
  findHandler : string -> option string;
  findModuleDir : string -> value
}.

(** [for (const key in v)] paired with [v[key]]: the own enumerable
    properties, then the inherited ones (only a Buffer inherits any) *)
Definition for_in (rt : Runtime) (v : value) : list (string * value) :=
  match v with
  | VObject props =>
      map (fun kv => (fst kv, default VUndefined (lookup_prop (fst kv) props)))
          props
  | VString s =>
      imap (fun i c => (index_key i, VString (String c EmptyString)))
           (String.list_ascii_of_string s)
  | VBuffer bs =>
      imap (fun i b => (index_key i, VNumber (Num (Z.of_N (Byte.to_N b))))) bs
      ++ Buffer_prototype rt
  | _ => []
  end.

(** ** Conversions *)

Definition Number (rt : Runtime) (v : value) : number :=
  match v with
  | VUndefined => NaN
  | VNull => Num 0
  | VBool b => Num (if b then 1 else 0)
  | VNumber n => n
  | VString s => StringToNumber rt s
  | _ => ObjectToNumber rt v
  end.

Definition ToString (rt : Runtime) (v : value) : string :=
  match v with
  | VUndefined => "undefined"
  | VNull => "null"
  | VBool b => if b then "true" else "false"
  | VString s => s
  | VError name message =>
      if String.eqb message "" then name
      else if String.eqb name "" then message
      else name +:+ ": " +:+ message
  | _ => ObjectToString rt v
  end.

(** [statusCode |= 0] in [writeHead] *)
Definition to_int32 (z : Z) : Z :=
  ((z + 2147483648) mod 4294967296 - 2147483648)%Z.

(** The status codes [writeHead] accepts: 100 to 999 after conversion. *)
Definition sendable (rt : Runtime) (statusCode : value) : bool :=
  match Number rt statusCode with
  | NaN => false
  | Num z => ((100 <=? to_int32 z) && (to_int32 z <=? 999))%Z
  end.

Definition TypeError (message : string) : value := VError "TypeError" message.
Definition RangeError (message : string) : value :=
  VError "RangeError" message.
Definition Error (message : string) : value := VError "Error" message.

(** [v.k] as an expression that may throw *)
Definition read (rt : Runtime) (v : value) (k : string) : result value :=
  match get v k with
  | Some x => Ok x
  | None =>
      Throw (TypeError
        ("Cannot read property '" +:+ k +:+ "' of " +:+ ToString rt v))
  end.

(** [v.toString()] *)
Definition toString (rt : Runtime) (v : value) : result string :=
  match v with
  | VUndefined | VNull =>
      Throw (TypeError ("Cannot read property 'toString' of " +:+ ToString rt v))
  | _ => Ok (ToString rt v)
  end.

(** ** The response object

    [response] is written through; the embedding records the operations the
    code performs on it, in order. These are the calls, not the bytes a
    client receives: operations performed after the first [end] are recorded
    too, although Node sends nothing more for them. *)

Inductive resp_op : Type :=
| SetStatusCode (v : value)
| SetHeader (key : string) (v : value)
| Write (chunk : value)
| EndResponse (chunk : option value).

(** A computation that operates on the response and returns or throws. *)
Definition resp (A : Type) : Type := (list resp_op * result A)%type.

Definition ret {A} (a : A) : resp A := ([], Ok a).
Definition emit (op : resp_op) : resp unit := ([op], Ok tt).
Definition lift {A} (r : result A) : resp A := ([], r).

Definition bind {A B} (m : resp A) (f : A -> resp B) : resp B :=
  match m with
  | (ops, Ok a) => (ops ++ fst (f a), snd (f a))
  | (ops, Throw e) => (ops, Throw e)
  end.

Notation "'try!' x := m 'in' k" := (bind m (fun x => k))
  (at level 10, x name, m at level 100, k at level 200).
Notation "m >> k" := (bind m (fun _ => k))
  (at level 65, right associativity).

Definition statuses (ops : list resp_op) : list value :=
  omap (fun op => match op with SetStatusCode v => Some v | _ => None end) ops.

Definition header_sets (ops : list resp_op) : list (string * value) :=
  omap (fun op => match op with SetHeader k v => Some (k, v) | _ => None end)
       ops.

(** The chunks given to [write] and [end], in order. *)
Definition bodies (ops : list resp_op) : list value :=
  omap (fun op => match op with
                  | Write c => Some c
                  | EndResponse (Some c) => Some c
                  | _ => None
                  end) ops.

Definition is_end (op : resp_op) : bool :=
  match op with EndResponse _ => true | _ => false end.

Definition ends (ops : list resp_op) : nat :=
  length (List.filter is_end ops).

(** One response: the status set once, one body chunk, ended once. *)
Definition written_once (ops : list resp_op) : Prop :=
  length (statuses ops) = 1 /\ length (bodies ops) = 1 /\ ends ops = 1.

(** ** [handleErr] *)

Definition handleErr (rt : Runtime) (err : value) : resp unit :=
  emit (SetStatusCode (VNumber (Num 500))) >>
  try! text := lift (toString rt err) in
  emit (Write (VString
    (NETLIFYDEVERR rt +:+ " Function invocation failed: " +:+ text))) >>
  emit (EndResponse None).

(** ** [buildClientContext] *)

Definition emulated_identity : value :=
  VObject
    [("url", VString "NETLIFY_LAMBDA_LOCALLY_EMULATED_IDENTITY_URL");
     ("token", VString "NETLIFY_LAMBDA_LOCALLY_EMULATED_IDENTITY_TOKEN")].

Definition buildClientContext (rt : Runtime) (headers : list (string * string))
  : value :=
  match lookup_prop "authorization" headers with
  | None => VUndefined
  | Some authorization =>
      if String.eqb authorization "" then VUndefined
      else
        match split_on " " authorization with
        | [bearer; token] =>
            if String.eqb bearer "Bearer" then
              match jwtDecode rt token with
              | Some claims =>
                  VObject [("identity", emulated_identity); ("user", claims)]
              | None => VUndefined
              end
            else VUndefined
        | _ => VUndefined
        end
  end.

(** ** [createCallback]: the completion callback of one invocation

    The assignment [callbackWasCalled = true] is accounted for by the caller:
    the flag is set as soon as the callback has been entered once. *)

Definition undefined_response : string :=
  "lambda response was undefined. check your function code again.".

Definition set_all (l : list (string * value)) : list resp_op :=
  map (fun kv => SetHeader (fst kv) (snd kv)) l.

(** The response object of Node, as far as the callback drives it. [sent]
    says that the head of the response is out (a chunk has been written or
    the response ended): from then on [setHeader] throws, while [write] and
    [end] return (a write after the end is reported later, as an error
    event). Before that, [setHeader] validates its arguments and the first
    [write] sends the head, which throws for a status outside 100..999. *)
Definition setHeader (rt : Runtime) (sent : bool) (kv : string * value)
  : resp unit :=
  if sent then
    lift (Throw (Error "Cannot set headers after they are sent to the client"))
  else if header_accepted rt (fst kv) (snd kv) then
    emit (SetHeader (fst kv) (snd kv))
  else lift (Throw (TypeError "Invalid header"))%string.

Definition write (rt : Runtime) (sent : bool) (statusCode chunk : value)
  : resp unit :=
  if sent || sendable rt statusCode then emit (Write chunk)
  else lift (Throw (RangeError "Invalid status code")).

Definition sends (op : resp_op) : bool :=
  match op with Write _ | EndResponse _ => true | _ => false end.

(** The [for ... in] loop of [setHeader] calls *)
Fixpoint setHeaders (rt : Runtime) (sent : bool) (l : list (string * value))
  : resp unit :=
  match l with
  | [] => ret tt
  | kv :: rest => setHeader rt sent kv >> setHeaders rt sent rest
  end.

(** The function [createCallback(response)] returns, entered with
    [(err, lambdaResponse)] on a response whose head is out or not. *)
Definition callback (rt : Runtime) (sent : bool) (err lambdaResponse : value)
  : resp unit :=
  if truthy err then handleErr rt err
  else
    match lambdaResponse with
    | VUndefined => handleErr rt (VString undefined_response)
    | _ =>
        try! statusCode := lift (read rt lambdaResponse "statusCode") in
        if negb (number_truthy (Number rt statusCode)) then
          handleErr rt (VString "Incorrect function response statusCode")
        else
          try! body := lift (read rt lambdaResponse "body") in
          match body with
          | VString text =>
              emit (SetStatusCode statusCode) >>
              (try! headers := lift (read rt lambdaResponse "headers") in
               setHeaders rt sent (for_in rt headers)) >>
              (try! isBase64Encoded :=
                 lift (read rt lambdaResponse "isBase64Encoded") in
               write rt sent statusCode
                 (if truthy isBase64Encoded
                  then VBuffer (Base64.decode text)
                  else VString text)) >>
              emit (EndResponse None)
          | _ => handleErr rt (VString "Incorrect function response body")
          end
    end.

(** The callback on a response nothing has been written to. *)
Definition createCallback (rt : Runtime) (err lambdaResponse : value)
  : resp unit :=
  callback rt false err lambdaResponse.

(** ** The registry built by [createHandler]

    [functions] is a plain object: a lookup falls back on its prototype, and
    an assignment to the key [__proto__] replaces the prototype instead of
    adding a property. *)

Record entry : Type := {
  functionPath : string;
  moduleDir : value
}.

Record registry : Type := {
  own : gmap string entry;
  proto : option entry
}.

Definition empty_registry : registry := {| own := ∅; proto := None |}.

Definition entry_props (e : entry) : list (string * value) :=
  [("functionPath", VString (functionPath e)); ("moduleDir", moduleDir e)].

(** The property names of [Object.prototype]. *)
Definition object_prototype_names : list string :=
  ["constructor"; "hasOwnProperty"; "isPrototypeOf"; "propertyIsEnumerable";
   "toLocaleString"; "toString"; "valueOf"; "__defineGetter__";
   "__defineSetter__"; "__lookupGetter__"; "__lookupSetter__"].

Definition object_prototype (key : string) : value :=
  if String.eqb key "__proto__" then VObject []
  else if existsb (String.eqb key) object_prototype_names then VBuiltin key
  else VUndefined.

(** [functions[key]] *)
Definition lookup_function (functions : registry) (key : string) : value :=
  match own functions !! key with
  | Some e => VObject (entry_props e)
  | None =>
      match proto functions with
      | Some e =>
          if String.eqb key "__proto__" then VObject (entry_props e)
          else default (object_prototype key) (lookup_prop key (entry_props e))
      | None => object_prototype key
      end
  end.

(** [functions[name] = e] *)
Definition assign (name : string) (e : entry) (functions : registry)
  : registry :=
  if String.eqb name "__proto__"
  then {| own := own functions; proto := Some e |}
  else {| own := <[name := e]> (own functions); proto := proto functions |}.

(** The body of [fs.readdirSync(dir).forEach(file => ...)]. *)
Definition scan_entry (fsys : FileSystem) (dir : string)
    (functions : registry) (file : string) : registry :=
  if String.eqb dir "node_modules" then functions
  else
    let functionPath := resolve_join fsys dir file in
    match findHandler fsys functionPath with
    | None => functions
    | Some handlerPath =>
        if String.eqb (extname fsys functionPath) ".js" then
          assign (strip_js_suffix file)
                 {| functionPath := functionPath;
                    moduleDir := findModuleDir fsys functionPath |}
                 functions
        else if isDirectory fsys functionPath then
          assign file
                 {| functionPath := handlerPath;
                    moduleDir := findModuleDir fsys functionPath |}
                 functions
        else functions
    end.

(** The object [functions] that [createHandler(dir)] builds. *)
Definition createHandler_functions (fsys : FileSystem) (dir : string)
  : registry :=
  fold_left (scan_entry fsys dir) (readdirSync fsys dir) empty_registry.

(** ** Module state: [module.paths] and [require.cache] *)

Record global : Type := {
  module_paths : list value;
  require_cache : gmap string value;
  (** the arguments [require] has been called with, oldest first *)
  required : list value
}.

Definition set_module_paths (paths : list value) (g : global) : global :=
  {| module_paths := paths;
     require_cache := require_cache g;
     required := required g |}.

Definition module_not_found (request : string) : value :=
  Error ("Cannot find module '" +:+ request +:+ "'").

(** [require(id)] *)
Definition require (rt : Runtime) (id : value) (g : global)
  : global * result value :=
  let g := {| module_paths := module_paths g;
              require_cache := require_cache g;
              required := required g ++ [id] |} in
  match id with
  | VString request =>
      match require_resolve rt (module_paths g) request with
      | None => (g, Throw (module_not_found request))
      | Some filename =>
          match require_cache g !! filename with
          | Some exports => (g, Ok exports)
          | None =>
              let cache :=
                require_cache g
                ∪ list_to_map (loaded_along rt (module_paths g) filename) in
              match load_module rt (module_paths g) filename with
              | Ok exports =>
                  ({| module_paths := module_paths g;
                      require_cache := <[filename := exports]> cache;
                      required := required g |}, Ok exports)
              | Throw e =>
                  ({| module_paths := module_paths g;
                      require_cache := delete filename cache;
                      required := required g |}, Throw e)
              end
          end
      end
  | _ =>
      (g, Throw (TypeError "The 'id' argument must be of type string"))
  end.

(** The callback [clearCache(action)] registers with the watcher. *)
Definition clearCache (rt : Runtime) (fn : entry) (g : global)
  : global * result unit :=
  let before := module_paths g in
  let g := set_module_paths [moduleDir fn] g in
  match require_resolve rt (module_paths g) (functionPath fn) with
  | None => (g, Throw (module_not_found (functionPath fn)))
  | Some filename =>
      let g := {| module_paths := module_paths g;
                  require_cache := delete filename (require_cache g);
                  required := required g |} in
      (set_module_paths before g, Ok tt)
  end.

(** ** The request handler returned by [createHandler] *)

Record request : Type := {
  req_path : string;
  req_method : string;
  req_url : string;
  req_headers : list (string * string);
  req_body : value
}.

(** [cleanPath.split("/").filter(e => e)[0]] *)
Definition first_segment (cleanPath : string) : option string :=
  head (List.filter (fun e => negb (String.eqb e "")) (split_on "/" cleanPath)).

Definition handler_name (path : string) : option string :=
  first_segment (strip_functions_prefix path).

(** A property key made of [func]: an undefined key reads as "undefined". *)
Definition property_key (func : option string) : string :=
  default "undefined" func.

(** The translation of [request.body]: [(body, isBase64Encoded)] *)
Definition translate_body (body : value) : string * bool :=
  match body with
  | VBuffer bs => (Base64.encode bs, true)
  | VString s => (s, false)
  | _ => ("", false)
  end.

Definition headers_value (headers : list (string * string)) : value :=
  VObject (map (fun kv => (fst kv, VString (snd kv))) headers).

Definition lambdaRequest (rt : Runtime) (req : request) : value :=
  let '(body, isBase64Encoded) := translate_body (req_body req) in
  VObject
    [("path", VString (req_path req));
     ("httpMethod", VString (req_method req));
     ("queryStringParameters", queryString_parse rt (query_of (req_url req)));
     ("headers", headers_value (req_headers req));
     ("body", VString body);
     ("isBase64Encoded", VBool isBase64Encoded)].

(** [buildClientContext(request.headers) || {}] *)
Definition invocationContext (rt : Runtime) (req : request) : value :=
  let clientContext := buildClientContext rt (req_headers req) in
  VObject
    [("clientContext",
      if truthy clientContext then clientContext else VObject [])].

Definition both_styles : string :=
  "Error: your function seems to be using both a callback and returning a promise (aka async function). This is invalid, pick one. (Hint: async!)".

(** The [try] block around the load. *)
Definition try_load (rt : Runtime) (functionPath moduleDir : value)
    (before : list value) (g : global) : global * result value :=
  let g := set_module_paths [moduleDir] g in
  let '(g, loaded) := require rt functionPath g in
  match loaded with
  | Throw e => (g, Throw e)
  | Ok handler =>
      match read rt handler "handler" with
      | Throw e => (g, Throw e)
      | Ok h =>
          if is_function h then (set_module_paths before g, Ok handler)
          else
            (g, Throw (Error ("function " +:+ ToString rt functionPath +:+
                              " must export a function named handler")))
      end
  end.

(** The calls of [callback] a handler makes before it returns; the first
    exception ends them. *)
Fixpoint sync_callbacks (rt : Runtime) (sent : bool)
    (calls : list (value * value)) : resp unit :=
  match calls with
  | [] => ret tt
  | (err, res) :: rest =>
      callback rt sent err res >>
      sync_callbacks rt
        (sent || existsb sends (fst (callback rt sent err res))) rest
  end.

(** What is left of an invocation when the request handler has returned. *)
Record invocation : Type := {
  inv_global : global;
  inv_response : list resp_op;
  (** the exception the request handler let escape, if any *)
  inv_thrown : option value;
  (** [promiseCallback] has attached [callback] to the returned promise *)
  inv_attached : bool;
  inv_later : list event
}.

(** The request handler is done with the response, or has thrown. *)
Definition finished (g : global) (r : resp unit) (evs : list event)
  : invocation :=
  {| inv_global := g;
     inv_response := fst r;
     inv_thrown := match snd r with Ok _ => None | Throw e => Some e end;
     inv_attached := false;
     inv_later := evs |}.

(** [promiseCallback(promise, callback)]: whether [then] gets called *)
Definition promiseCallback (promise : value) : bool :=
  truthy promise && is_thenable promise.

(** From the call of [handler.handler] to the end of the request handler. *)
Definition run_handler (rt : Runtime) (g : global) (b : behaviour)
  : invocation :=
  let '(ops, called) := sync_callbacks rt false (sync_calls b) in
  let callbackWasCalled :=
    match sync_calls b with [] => false | _ => true end in
  match called, returned b with
  | Throw e, Ok promise =>
      if truthy promise && is_thenable promise then
        finished g (ops, Throw (Error both_styles)) (later b)
      else finished g (ops, Throw e) (later b)
  | Throw e, Throw _ => finished g (ops, Throw e) (later b)
  | Ok _, Throw e => finished g (ops, Throw e) (later b)
  | Ok _, Ok promise =>
      if callbackWasCalled && truthy promise && is_thenable promise then
        finished g (ops, Throw (Error both_styles)) (later b)
      else
        {| inv_global := g;
           inv_response := ops;
           inv_thrown := None;
           inv_attached := promiseCallback promise;
           inv_later := later b |}
  end.

Definition createHandler (rt : Runtime) (functions : registry)
    (req : request) (g : global) : invocation :=
  let cleanPath := strip_functions_prefix (req_path req) in
  let func := first_segment cleanPath in
  let fn := lookup_function functions (property_key func) in
  if negb (truthy fn) then
    finished g
      (emit (SetStatusCode (VNumber (Num 404))) >>
       emit (EndResponse (Some (VString "Function not found..."))))
      []
  else
    let functionPath := default VUndefined (get fn "functionPath") in
    let moduleDir := default VUndefined (get fn "moduleDir") in
    let before := module_paths g in
    match try_load rt functionPath moduleDir before g with
    | (g, Throw error) =>
        let g := set_module_paths before g in
        finished g (handleErr rt error) []
    | (g, Ok handler) =>
        run_handler rt g
          (call rt (default VUndefined (get handler "handler"))
                (lambdaRequest rt req) (invocationContext rt req))
    end.

(** ** After the request handler has returned *)

(** One later event: a call of [callback] by the handler, or the settlement
    of the returned promise, which reaches [callback] only when
    [promiseCallback] attached it. *)
Definition fire (rt : Runtime) (attached sent : bool) (ev : event)
  : resp unit :=
  match ev with
  | CallbackCalled err res => callback rt sent err res
  | Settled (Fulfilled data) =>
      if attached then callback rt sent VNull data else ret tt
  | Settled (Rejected err) =>
      if attached then callback rt sent err VNull else ret tt
  end.

(** The later events in order: the operations on the response, and the
    exceptions thrown out of a callback call that nothing caught (the error
    event by which the stream reports a write after the end is not among
    them). *)
Fixpoint settle (rt : Runtime) (attached sent : bool) (evs : list event)
  : list resp_op * list value :=
  match evs with
  | [] => ([], [])
  | ev :: rest =>
      let '(ops, r) := fire rt attached sent ev in
      let '(ops', uncaught) :=
        settle rt attached (sent || existsb sends ops) rest in
      (ops ++ ops',
       match r with Ok _ => uncaught | Throw e => e :: uncaught end)
  end.

Record completed : Type := {
  final_global : global;
  final_response : list resp_op;
  final_thrown : option value;
  final_uncaught : list value
}.

Definition complete (rt : Runtime) (inv : invocation) : completed :=
  let '(ops, uncaught) :=
    settle rt (inv_attached inv) (existsb sends (inv_response inv))
           (inv_later inv) in
  {| final_global := inv_global inv;
     final_response := inv_response inv ++ ops;
     final_thrown := inv_thrown inv;
     final_uncaught := uncaught |}.

(** One whole invocation: the request handler, then the later events. *)
Definition invoke (rt : Runtime) (functions : registry) (req : request)
    (g : global) : completed :=
  complete rt (createHandler rt functions req g).

(** ** Completions of a handler

    The arguments [callback] is entered with during an invocation, in order,
    when no call of it throws: the handler's own calls and, when
    [promiseCallback] attached it, the settlement of the returned promise. *)

Definition attaches (b : behaviour) : bool :=
  match sync_calls b, returned b with
  | [], Ok promise => promiseCallback promise
  | _, _ => false
  end.

Definition completion_of (attached : bool) (ev : event)
  : list (value * value) :=
  match ev with
  | CallbackCalled err res => [(err, res)]
  | Settled (Fulfilled data) => if attached then [(VNull, data)] else []
  | Settled (Rejected err) => if attached then [(err, VNull)] else []
  end.

Definition completions (b : behaviour) : list (value * value) :=
  sync_calls b ++ flat_map (completion_of (attaches b)) (later b).

Definition in_range (n : number) : bool :=
  match n with
  | NaN => false
  | Num z => ((100 <=? z) && (z <=? 999))%Z
  end.

Definition no_headers (props : list (string * value)) : bool :=
  match lookup_prop "headers" props with
  | None | Some VUndefined | Some VNull | Some (VObject []) => true
  | Some _ => false
  end.

(** A result the callback answers in every runtime and in every state of the
    response: one it refuses (with its 500), or one with a numeric status
    from 100 to 999, a string body and no header to set. *)
Definition plain (res : value) : bool :=
  match res with
  | VNull => false
  | VObject props =>
      match lookup_prop "statusCode" props with
      | None | Some VUndefined => true
      | Some (VNumber n) =>
          negb (number_truthy n)
          || negb (is_string (default VUndefined (lookup_prop "body" props)))
          || (in_range n && no_headers props)
      | Some _ => false
      end
  | _ => true
  end.

(** A completion the callback can read and answer: an error, or a plain
    result. *)
Definition readable (c : value * value) : Prop :=
  truthy (fst c) = true \/ plain (snd c) = true.

(** A completion the callback answers on a fresh response in this runtime:
    an error, a result it refuses, or a result whose status the response
    accepts and whose headers [setHeader] accepts. *)
Definition answered (rt : Runtime) (c : value * value) : bool :=
  truthy (fst c)
  || match snd c with
     | VUndefined => true
     | VNull => false
     | res =>
         negb (number_truthy
                 (Number rt (default VUndefined (get res "statusCode"))))
         || negb (is_string (default VUndefined (get res "body")))
         || (sendable rt (default VUndefined (get res "statusCode"))
             && forallb (fun kv => header_accepted rt (fst kv) (snd kv))
                  (for_in rt (default VUndefined (get res "headers"))))
     end.

(** ** A runtime and a registry for the examples *)

Fixpoint digits_value (acc : Z) (s : string) : number :=
  match s with
  | EmptyString => Num acc
  | String c rest =>
      let n := N_of_ascii c in
      if ((48 <=? n) && (n <=? 57))%N
      then digits_value (10 * acc + Z.of_N (n - 48)) rest
      else NaN
  end.

(** A runtime whose only handler behaves as [b]; its number parser reads
    decimal digits; no token decodes but "claims"; [hello.js] resolves and
    exports that handler, no other path resolves. *)
Definition example_runtime (b : behaviour) : Runtime :=
  {| NETLIFYDEVERR := "[netlify-dev]";
     StringToNumber := fun s =>
       if String.eqb s "" then Num 0 else digits_value 0 s;
     ObjectToNumber := fun _ => NaN;
     ObjectToString := fun _ => "[object Object]";
     jwtDecode := fun token =>
       if String.eqb token "claims"
       then Some (VObject [("sub", VString "1234")]) else None;
     queryString_parse := fun _ => VObject [];
     require_resolve := fun _ request =>
       if String.eqb request "/site/functions/hello.js" then Some request
       else None;
     load_module := fun _ filename =>
       if String.eqb filename "/site/functions/hello.js"
       then Ok (VObject [("handler", VFunction 0)])
       else Throw (Error "not a module");
     call := fun _ _ _ => b;
     loaded_along := fun _ _ => [];
     header_accepted := fun name v =>
       negb (String.eqb name "") && negb (contains " " name) && is_string v;
     Buffer_prototype := [("toJSON", VBuiltin "toJSON")] |}.

(** A handler that neither calls back nor returns anything. *)
Definition idle : behaviour :=
  {| sync_calls := []; returned := Ok VUndefined; later := [] |}.

Definition example_functions : registry :=
  assign "hello"
    {| functionPath := "/site/functions/hello.js"; moduleDir := VString "/site" |}
    (assign "gone"
       {| functionPath := "/site/functions/gone.js";
          moduleDir := VString "/site" |}
       empty_registry).

Definition example_global : global :=
  {| module_paths := [VString "/usr/lib/node_modules"];
     require_cache := ∅;
     required := [] |}.

Definition example_request (path : string) : request :=
  {| req_path := path;
     req_method := "GET";
     req_url := path;
     req_headers := [];
     req_body := VObject [] |}.

Definition ok_result (body : string) : value :=
  VObject [("statusCode", VNumber (Num 200)); ("body", VString body)].

(** A functions directory with a file and two directories, one of them
    named node_modules and holding an index.js. *)
Definition example_fs : FileSystem :=
  {| readdirSync := fun _ => ["hello.js"; "node_modules"; "notes"];
     resolve_join := fun dir file => "/site/" +:+ dir +:+ "/" +:+ file;
     extname := fun p =>
       if String.eqb p "/site/functions/hello.js" then ".js" else "";
     isDirectory := fun p => negb (String.eqb p "/site/functions/hello.js");
     findHandler := fun p =>
       if String.eqb p "/site/functions/hello.js" then Some p
       else if String.eqb p "/site/functions/node_modules"
       then Some "/site/functions/node_modules/index.js"
       else None;
     findModuleDir := fun _ => VString "/site" |}.

(** ** The responses the bridge writes on its own *)

(** What [handleErr] does to the response for an error that prints as
    [text]. *)
Definition failure (rt : Runtime) (text : string) : list resp_op :=
  [SetStatusCode (VNumber (Num 500));
   Write (VString
     (NETLIFYDEVERR rt +:+ " Function invocation failed: " +:+ text));
   EndResponse None].

Definition not_found : list resp_op :=
  [SetStatusCode (VNumber (Num 404));
   EndResponse (Some (VString "Function not found..."))].

Definition invalid_id (rt : Runtime) : list resp_op :=
  failure rt "TypeError: The 'id' argument must be of type string".

(** What [createCallback] does to the response for a result it accepts. *)
Definition success (rt : Runtime)
    (statusCode headers isBase64Encoded : value) (text : string)
  : list resp_op :=
  SetStatusCode statusCode ::
  set_all (for_in rt headers) ++
  [Write (if truthy isBase64Encoded
          then VBuffer (Base64.decode text) else VString text);
   EndResponse None].

(** ** Handlers for the examples *)

(** Calls back twice before it returns. *)
Definition calls_back_twice : behaviour :=
  {| sync_calls := [(VNull, ok_result "first"); (VNull, ok_result "second")];
     returned := Ok VUndefined;
     later := [] |}.

(** An async function that also calls back, after it has returned. *)
Definition both_later : behaviour :=
  {| sync_calls := [];
     returned := Ok (VPromise 0);
     later := [CallbackCalled VNull (ok_result "from the callback");
               Settled (Fulfilled (ok_result "from the promise"))] |}.

(** An async function that resolves to an accepted result. *)
Definition deferred_only : behaviour :=
  {| sync_calls := [];
     returned := Ok (VPromise 0);
     later := [Settled (Fulfilled (ok_result "done"))] |}.

(** An async function that resolves to null. *)
Definition resolves_null : behaviour :=
  {| sync_calls := [];
     returned := Ok (VPromise 0);
     later := [Settled (Fulfilled VNull)] |}.

(** An async function whose promise is rejected without a reason. *)
Definition rejects_without_reason : behaviour :=
  {| sync_calls := [];
     returned := Ok (VPromise 0);
     later := [Settled (Rejected VUndefined)] |}.

(** The operations of a sequence of completions, one after the other. *)
Definition responses (rt : Runtime) (cs : list (value * value))
  : list resp_op :=
  flat_map (fun c => fst (createCallback rt (fst c) (snd c))) cs.

(** The example handlers behind [/hello]. *)
Definition example_invocation (b : behaviour) : completed :=
  invoke (example_runtime b) example_functions
         (example_request "/.netlify/functions/hello") example_global.

(** ** [assignLoudly] *)

Definition is_undefined (v : value) : bool :=
  match v with VUndefined => true | _ => false end.

Definition is_object (v : value) : bool :=
  match v with
  | VBuffer _ | VFunction _ | VBuiltin _ | VPromise _ | VError _ _
  | VObject _ => true
  | _ => false
  end.

(** [a === b]. Two objects are equal when they are the same object, which
    [same_object] decides: values carry no identity. *)
Definition strict_equal (same_object : value -> value -> bool) (a b : value)
  : bool :=
  match a, b with
  | VUndefined, VUndefined => true
  | VNull, VNull => true
  | VBool x, VBool y => Bool.eqb x y
  | VNumber (Num x), VNumber (Num y) => Z.eqb x y
  | VString x, VString y => String.eqb x y
  | _, _ => is_object a && is_object b && same_object a b
  end.

(** [assignLoudly(optionalValue, fallbackValue, tellUser)]: the arguments
    [tellUser] is called with, and the value returned or the error thrown. *)
Definition assignLoudly (same_object : value -> value -> bool)
    (optionalValue fallbackValue : value) : list value * result value :=
  if strict_equal same_object fallbackValue VUndefined then
    ([], Throw (Error "must have a fallbackValue"))
  else if negb (strict_equal same_object fallbackValue optionalValue)
          && strict_equal same_object optionalValue VUndefined then
    ([fallbackValue], Ok fallbackValue)
  else ([], Ok optionalValue).

(** ** What the scan makes of one directory entry *)

(** The name and the entry the body of the scan assigns for [file], if it
    assigns one. *)
Definition entry_of (fsys : FileSystem) (dir file : string)
  : option (string * entry) :=
  if String.eqb dir "node_modules" then None
  else
    match findHandler fsys (resolve_join fsys dir file) with
    | None => None
    | Some handlerPath =>
        if String.eqb (extname fsys (resolve_join fsys dir file)) ".js" then
          Some (strip_js_suffix file,
                {| functionPath := resolve_join fsys dir file;
                   moduleDir := findModuleDir fsys (resolve_join fsys dir file) |})
        else if isDirectory fsys (resolve_join fsys dir file) then
          Some (file,
                {| functionPath := handlerPath;
                   moduleDir := findModuleDir fsys (resolve_join fsys dir file) |})
        else None
    end.

(** ** Shapes of paths and URLs *)

Fixpoint only_slashes (s : string) : bool :=
  match s with
  | EmptyString => true
  | String c rest => Ascii.eqb c "/" && only_slashes rest
  end.


Definition is_settlement (ev : event) : bool :=
  match ev with Settled _ => true | CallbackCalled _ _ => false end.

(** The example runtime with a [hello.js] that exports no function. *)
Definition misexporting_runtime : Runtime :=
  {| NETLIFYDEVERR := "[netlify-dev]";
     StringToNumber := StringToNumber (example_runtime idle);
     ObjectToNumber := ObjectToNumber (example_runtime idle);
     ObjectToString := ObjectToString (example_runtime idle);
     jwtDecode := jwtDecode (example_runtime idle);
     queryString_parse := queryString_parse (example_runtime idle);
     require_resolve := require_resolve (example_runtime idle);
     load_module := fun _ _ => Ok (VObject [("handler", VString "not yet")]);
     call := call (example_runtime idle);
     loaded_along := loaded_along (example_runtime idle);
     header_accepted := header_accepted (example_runtime idle);
     Buffer_prototype := Buffer_prototype (example_runtime idle) |}.


(** Returns its result instead of calling back or returning a promise. *)
Definition returns_plainly : behaviour :=
  {| sync_calls := [];
     returned := Ok (ok_result "returned");
     later := [] |}.


(** The result of a handler that sends back the body it was given, with the
    flag it was given. *)
Definition echo_result (lambdaRequest : value) : value :=
  VObject
    [("statusCode", VNumber (Num 200));
     ("body", default VUndefined (get lambdaRequest "body"));
     ("isBase64Encoded",
      default VUndefined (get lambdaRequest "isBase64Encoded"))].

(** * Properties *)

(** ** Base64 round trip *)

Ltac div_lia := zify; Z.to_euclidean_division_equations; lia.

Lemma append_String (c : ascii) (s t : string) :
  String c s +:+ t = String c (s +:+ t).
Proof. reflexivity. Qed.

Lemma append_empty (t : string) : "" +:+ t = t.
Proof. reflexivity. Qed.

Section Base64Facts.
Import Base64.

Lemma three_step_ind (P : list byte -> Prop) :
  P [] ->
  (forall a, P [a]) ->
  (forall a b, P [a; b]) ->
  (forall a b c l, P l -> P (a :: b :: c :: l)) ->
  forall l, P l.
Proof.
  intros H0 H1 H2 H3 l.
  assert (H : P l /\ (forall a, P (a :: l)) /\ (forall a b, P (a :: b :: l))).
  { induction l as [|x l (IH0 & IH1 & IH2)]; [now auto|].
    split; [apply IH1|]. split; [intro a; apply IH2|].
    intros a b. now apply H3. }
  apply H.
Qed.

Lemma sextet_table :
  forallb (fun k => match unbase64 (sextet_char (N.of_nat k)) with
                    | Some m => N.eqb m (N.of_nat k)
                    | None => false
                    end) (seq 0 64) = true.
Proof. vm_compute. reflexivity. Qed.

Lemma unbase64_sextet_char (n : N) :
  (n < 64)%N -> unbase64 (sextet_char n) = Some n.
Proof.
  intros Hn.
  pose proof sextet_table as T.
  rewrite forallb_forall in T.
  specialize (T (N.to_nat n)).
  rewrite N2Nat.id in T.
  destruct (unbase64 (sextet_char n)) as [m|].
  - f_equal. apply N.eqb_eq. apply T. apply in_seq. lia.
  - enough (false = true) by discriminate. apply T. apply in_seq. lia.
Qed.

Lemma sextets_cons (n : N) (s : string) :
  (n < 64)%N -> sextets (String (sextet_char n) s) = n :: sextets s.
Proof. intros Hn. cbn [sextets]. now rewrite unbase64_sextet_char. Qed.

Lemma sextets_pad (s : string) : sextets (String "="%char s) = [].
Proof. reflexivity. Qed.

Lemma byte_of_to_N (b : byte) (n : N) : n = Byte.to_N b -> byte_of n = b.
Proof. intros ->. unfold byte_of. now rewrite Byte.of_to_N. Qed.

Lemma decode_group3 (a b c : byte) (s : string) :
  decode (group3 a b c +:+ s) = a :: b :: c :: decode s.
Proof.
  pose proof (Byte.to_N_bounded a). pose proof (Byte.to_N_bounded b).
  pose proof (Byte.to_N_bounded c).
  unfold decode, group3. cbv zeta. rewrite !append_String, append_empty.
  rewrite !sextets_cons by div_lia.
  cbn [bytes_of_sextets]. unfold out1, out2, out3.
  f_equal; [|f_equal; [|f_equal]]; apply byte_of_to_N; div_lia.
Qed.

Lemma decode_group2 (a b : byte) : decode (group2 a b) = [a; b].
Proof.
  pose proof (Byte.to_N_bounded a). pose proof (Byte.to_N_bounded b).
  unfold decode, group2. cbv zeta.
  rewrite !sextets_cons by div_lia. rewrite sextets_pad.
  cbn [bytes_of_sextets]. unfold out1, out2.
  f_equal; [|f_equal]; apply byte_of_to_N; div_lia.
Qed.

Lemma decode_group1 (a : byte) : decode (group1 a) = [a].
Proof.
  pose proof (Byte.to_N_bounded a).
  unfold decode, group1. cbv zeta.
  rewrite !sextets_cons by div_lia. rewrite sextets_pad.
  cbn [bytes_of_sextets]. unfold out1.
  f_equal; apply byte_of_to_N; div_lia.
Qed.

Lemma decode_encode (bs : list byte) : decode (encode bs) = bs.
Proof.
  induction bs as [|a|a b|a b c l IH] using three_step_ind.
  - reflexivity.
  - apply decode_group1.
  - apply decode_group2.
  - cbn [encode]. rewrite decode_group3. now rewrite IH.
Qed.

End Base64Facts.

(** ** Inbound body translation *)

(** C5: a Buffer body becomes its base64 text with [isBase64Encoded] set, and
    decoding that text gives the bytes back; a string body passes through
    with the flag clear; any other body ("no body") becomes the empty string
    with the flag clear. *)
Theorem inbound_body_translation :
  (forall bs : list byte,
      translate_body (VBuffer bs) = (Base64.encode bs, true) /\
      Base64.decode (fst (translate_body (VBuffer bs))) = bs) /\
  (forall s : string, translate_body (VString s) = (s, false)) /\
  (forall v : value,
      (forall bs, v <> VBuffer bs) -> (forall s, v <> VString s) ->
      translate_body v = ("", false)) /\
  (forall (rt : Runtime) (req : request),
      get (lambdaRequest rt req) "body"
        = Some (VString (fst (translate_body (req_body req)))) /\
      get (lambdaRequest rt req) "isBase64Encoded"
        = Some (VBool (snd (translate_body (req_body req))))).
Proof.
  repeat split.
  - cbn. apply decode_encode.
  - intros v Hb Hs. destruct v; try reflexivity.
    + now destruct (Hs s).
    + now destruct (Hb bs).
  - unfold lambdaRequest. now destruct (translate_body (req_body req)).
  - unfold lambdaRequest. now destruct (translate_body (req_body req)).
Qed.

Lemma inbound_body_translation_witness :
  translate_body (VObject []) = ("", false).
Proof.
  destruct inbound_body_translation as (_ & _ & no_body & _).
  apply (no_body (VObject [])); discriminate.
Defined.

(** ** Client context *)

Lemma split_on_absent (sep : ascii) (s : string) :
  contains sep s = false -> split_on sep s = [s].
Proof.
  induction s as [|c s IH]; [reflexivity|].
  cbn [contains split_on]. intros H.
  apply orb_false_iff in H as [Hc Hs].
  rewrite Ascii.eqb_sym in Hc. rewrite Hc, (IH Hs). reflexivity.
Qed.

Lemma split_bearer (token : string) :
  contains " " token = false ->
  split_on " " ("Bearer " +:+ token) = ["Bearer"; token].
Proof.
  intros H. rewrite !append_String, append_empty.
  cbn. now rewrite (split_on_absent _ _ H).
Qed.

(** C6: without an authorization header, with one that does not split on
    spaces into exactly "Bearer" and a token, or with a token that
    jwt-decode rejects, [buildClientContext] returns undefined (it returns a
    value in every case: nothing is thrown) and the handler sees an empty
    [clientContext]; with "Bearer <token>" and a token that decodes, the
    context has [user] equal to the decoded claims and [identity] equal to
    the two emulated placeholders, url and token, and that context is the
    [clientContext] the handler sees. *)
Theorem client_context_derivation (rt : Runtime)
    (headers : list (string * string)) :
  (lookup_prop "authorization" headers = None ->
   buildClientContext rt headers = VUndefined) /\
  (forall authorization,
      lookup_prop "authorization" headers = Some authorization ->
      (forall token, split_on " " authorization <> ["Bearer"; token]) ->
      buildClientContext rt headers = VUndefined) /\
  (forall authorization token,
      lookup_prop "authorization" headers = Some authorization ->
      split_on " " authorization = ["Bearer"; token] ->
      jwtDecode rt token = None ->
      buildClientContext rt headers = VUndefined) /\
  (forall token claims,
      lookup_prop "authorization" headers = Some ("Bearer " +:+ token) ->
      contains " " token = false ->
      jwtDecode rt token = Some claims ->
      buildClientContext rt headers
        = VObject
            [("identity",
              VObject
                [("url",
                  VString "NETLIFY_LAMBDA_LOCALLY_EMULATED_IDENTITY_URL");
                 ("token",
                  VString "NETLIFY_LAMBDA_LOCALLY_EMULATED_IDENTITY_TOKEN")]);
             ("user", claims)]) /\
  (forall req,
      req_headers req = headers ->
      buildClientContext rt headers = VUndefined ->
      invocationContext rt req = VObject [("clientContext", VObject [])]) /\
  (forall req token claims,
      req_headers req = headers ->
      lookup_prop "authorization" headers = Some ("Bearer " +:+ token) ->
      contains " " token = false ->
      jwtDecode rt token = Some claims ->
      invocationContext rt req
        = VObject
            [("clientContext",
              VObject
                [("identity",
                  VObject
                    [("url",
                      VString "NETLIFY_LAMBDA_LOCALLY_EMULATED_IDENTITY_URL");
                     ("token",
                      VString
                        "NETLIFY_LAMBDA_LOCALLY_EMULATED_IDENTITY_TOKEN")]);
                 ("user", claims)])]).
Proof.
  assert (Decoded : forall token claims,
             lookup_prop "authorization" headers = Some ("Bearer " +:+ token) ->
             contains " " token = false ->
             jwtDecode rt token = Some claims ->
             buildClientContext rt headers
             = VObject [("identity", emulated_identity); ("user", claims)]).
  { intros token claims Hauth Hsp Hdec. unfold buildClientContext.
    rewrite Hauth, (split_bearer _ Hsp). cbn. now rewrite Hdec. }
  split; [|split; [|split; [|split; [|split]]]].
  - unfold buildClientContext. now intros ->.
  - unfold buildClientContext. intros a -> Hshape.
    destruct (String.eqb a ""); [reflexivity|].
    destruct (split_on " " a) as [|bearer [|token [|? ?]]]; try reflexivity.
    destruct (String.eqb_spec bearer "Bearer") as [->|]; [|reflexivity].
    now destruct (Hshape token).
  - unfold buildClientContext. intros a token -> Hsplit Hdec.
    destruct (String.eqb a ""); [reflexivity|].
    rewrite Hsplit. cbn. now rewrite Hdec.
  - exact Decoded.
  - intros req <- Hctx. unfold invocationContext. now rewrite Hctx.
  - intros req token claims <- Hauth Hsp Hdec. unfold invocationContext.
    now rewrite (Decoded token claims Hauth Hsp Hdec).
Qed.

Lemma client_context_derivation_witness :
  invocationContext (example_runtime idle)
    {| req_path := "/hello";
       req_method := "GET";
       req_url := "/hello";
       req_headers :=
         [("host", "localhost"); ("authorization", "Bearer claims")];
       req_body := VUndefined |}
  = VObject
      [("clientContext",
        VObject
          [("identity",
            VObject
              [("url",
                VString "NETLIFY_LAMBDA_LOCALLY_EMULATED_IDENTITY_URL");
               ("token",
                VString "NETLIFY_LAMBDA_LOCALLY_EMULATED_IDENTITY_TOKEN")]);
           ("user", VObject [("sub", VString "1234")])])].
Proof.
  destruct (client_context_derivation (example_runtime idle)
              [("host", "localhost"); ("authorization", "Bearer claims")])
    as (_ & _ & _ & _ & _ & seen).
  apply (seen _ "claims"); reflexivity.
Defined.

(** ** Dispatch: the handler name of a request path *)

Lemma strip_prefix_append (p s : string) : strip_prefix p (p +:+ s) = Some s.
Proof.
  induction p as [|a p IH]; [now destruct s|].
  rewrite append_String. cbn [strip_prefix]. now rewrite Ascii.eqb_refl.
Qed.

Lemma strip_prefix_Some (p s t : string) :
  strip_prefix p s = Some t -> s = p +:+ t.
Proof.
  revert s. induction p as [|a p IH]; intros s H.
  - destruct s; cbn in H; now inversion H.
  - destruct s as [|b s]; [discriminate|]. cbn [strip_prefix] in H.
    destruct (Ascii.eqb_spec a b) as [->|]; [|discriminate].
    rewrite append_String. f_equal. now apply IH.
Qed.

Lemma strip_functions_prefix_any (c : ascii) (s : string) :
  is_line_terminator c = false ->
  strip_functions_prefix (String "/" (String c ("netlify/functions" +:+ s))) = s.
Proof.
  intros Hc. unfold strip_functions_prefix.
  rewrite Hc, strip_prefix_append. reflexivity.
Qed.

Lemma strip_functions_prefix_bare (f : string) :
  contains "/" f = false ->
  strip_functions_prefix (String "/" f) = String "/" f.
Proof.
  intros Hf. unfold strip_functions_prefix.
  destruct f as [|c rest]; [reflexivity|].
  destruct (Ascii.eqb "/" "/" && negb (is_line_terminator c)); [|reflexivity].
  destruct (strip_prefix "netlify/functions" rest) as [tail|] eqn:E;
    [|reflexivity].
  apply strip_prefix_Some in E. subst rest.
  cbn [contains] in Hf. apply orb_false_iff in Hf as [_ Hf].
  rewrite !append_String in Hf. cbn [contains] in Hf.
  repeat (apply orb_false_iff in Hf as [? Hf]; try discriminate).
Qed.

Lemma first_segment_single (f : string) :
  f <> "" -> contains "/" f = false -> first_segment (String "/" f) = Some f.
Proof.
  intros Hne Hf. unfold first_segment. cbn [split_on].
  rewrite Ascii.eqb_refl, (split_on_absent _ _ Hf). cbn.
  destruct (String.eqb_spec f ""); [contradiction|reflexivity].
Qed.

(** C10: in front of [netlify/functions] the pattern accepts any single
    character a request path can hold (the dot matches every character but
    a line terminator, and the path of an HTTP request holds none), so for
    a handler name [f] (non-empty, without a slash, as directory entries
    are) the paths [/<c>netlify/functions/f], [/.netlify/functions/f] and
    [/f] all resolve to [f]. *)
Theorem prefix_dot_matches_any_character (c : ascii) (f : string) :
  is_line_terminator c = false ->
  f <> "" ->
  contains "/" f = false ->
  handler_name (String "/" (String c ("netlify/functions/" +:+ f))) = Some f /\
  handler_name ("/.netlify/functions/" +:+ f) = Some f /\
  handler_name ("/" +:+ f) = Some f.
Proof.
  intros Hc Hne Hf. unfold handler_name.
  assert (H : forall d, is_line_terminator d = false ->
    first_segment
      (strip_functions_prefix
         (String "/" (String d ("netlify/functions/" +:+ f)))) = Some f).
  { intros d Hd.
    change ("netlify/functions/" +:+ f)
      with ("netlify/functions" +:+ String "/" f).
    rewrite (strip_functions_prefix_any _ _ Hd).
    now apply first_segment_single. }
  split; [now apply H|]. split.
  - now apply (H "."%char).
  - change ("/" +:+ f) with (String "/" f).
    rewrite (strip_functions_prefix_bare _ Hf).
    now apply first_segment_single.
Qed.

Lemma prefix_dot_matches_any_character_witness :
  handler_name "/xnetlify/functions/hello" = Some "hello" /\
  handler_name "/.netlify/functions/hello" = Some "hello" /\
  handler_name "/hello" = Some "hello".
Proof.
  apply (prefix_dot_matches_any_character "x" "hello");
    [reflexivity | discriminate | reflexivity].
Defined.

(** The hypothesis on [c] is what the pattern needs: the dot does not match
    a line feed, which no request path holds. *)
Example dot_does_not_match_line_feed :
  handler_name (String "/" (String LF "netlify/functions/hello"))
    = Some (String LF "netlify") /\
  handler_name (String "/" (String LF "netlify/functions/hello"))
    <> handler_name "/hello".
Proof. split; [reflexivity|discriminate]. Qed.

(** ** Dispatch: unknown handler names *)

(** A name [functions] does not have, own or inherited, is answered with 404
    and nothing is loaded or called, whatever the method. *)
Lemma unknown_name_is_404 (rt : Runtime) (functions : registry)
    (req : request) (g : global) :
  lookup_function functions (property_key (handler_name (req_path req)))
    = VUndefined ->
  createHandler rt functions req g = finished g (not_found, Ok tt) [].
Proof.
  intros H. unfold createHandler, handler_name in *. now rewrite H.
Qed.

Lemma lookup_function_unknown (functions : registry) (key : string) :
  own functions !! key = None ->
  proto functions = None ->
  key <> "__proto__" ->
  ~ In key object_prototype_names ->
  lookup_function functions key = VUndefined.
Proof.
  intros Hown Hproto Hkey Hnames. unfold lookup_function, object_prototype.
  rewrite Hown, Hproto.
  destruct (String.eqb_spec key "__proto__"); [contradiction|].
  destruct (existsb (String.eqb key) object_prototype_names) eqn:E;
    [|reflexivity].
  apply existsb_exists in E as (name & Hin & Heq).
  apply String.eqb_eq in Heq. now subst name.
Qed.

(** C8 at [/constructor] with an empty registry: the name is not a key of
    the registry, the lookup finds [Object.prototype.constructor], the
    request handler goes on to [require(undefined)], and the answer is the
    500 of [handleErr], not the 404. *)
Theorem inherited_name_is_not_404 (rt : Runtime) (g : global) :
  handler_name "/constructor" = Some "constructor" /\
  own empty_registry !! "constructor" = None /\
  statuses
    (inv_response
       (createHandler rt empty_registry (example_request "/constructor") g))
    = [VNumber (Num 500)] /\
  inv_response
    (createHandler rt empty_registry (example_request "/constructor") g)
    = invalid_id rt /\
  required
    (inv_global
       (createHandler rt empty_registry (example_request "/constructor") g))
    = required g ++ [VUndefined].
Proof. repeat split. Qed.

(** ** The registry scan *)

(** The guard of the scan compares the root [dir], not the entry: a root
    named node_modules registers nothing. *)
Lemma scan_of_node_modules_root (fsys : FileSystem) :
  createHandler_functions fsys "node_modules" = empty_registry.
Proof.
  unfold createHandler_functions.
  induction (readdirSync fsys "node_modules") as [|file files IH];
    [reflexivity|exact IH].
Qed.

(** Under any other root, a directory entry named node_modules in which
    [findHandler] finds an entry point is registered like any directory. *)
Lemma scan_entry_node_modules (fsys : FileSystem) (dir handlerPath : string)
    (functions : registry) :
  dir <> "node_modules" ->
  findHandler fsys (resolve_join fsys dir "node_modules") = Some handlerPath ->
  extname fsys (resolve_join fsys dir "node_modules") <> ".js" ->
  isDirectory fsys (resolve_join fsys dir "node_modules") = true ->
  own (scan_entry fsys dir functions "node_modules") !! "node_modules"
    = Some {| functionPath := handlerPath;
              moduleDir :=
                findModuleDir fsys (resolve_join fsys dir "node_modules") |}.
Proof.
  intros Hdir Hfind Hext Hisdir. unfold scan_entry.
  destruct (String.eqb_spec dir "node_modules"); [contradiction|].
  rewrite Hfind.
  destruct (String.eqb_spec (extname fsys (resolve_join fsys dir "node_modules"))
              ".js"); [contradiction|].
  rewrite Hisdir. unfold assign. cbn. apply lookup_insert_eq.
Qed.

(** C9 on a functions directory that contains hello.js, node_modules (with an
    index.js) and notes: node_modules is not skipped, it is registered as a
    handler. *)
Theorem node_modules_entry_is_registered :
  In "node_modules" (readdirSync example_fs "functions") /\
  own (createHandler_functions example_fs "functions") !! "node_modules"
    = Some {| functionPath := "/site/functions/node_modules/index.js";
              moduleDir := VString "/site" |} /\
  truthy (lookup_function (createHandler_functions example_fs "functions")
            "node_modules") = true.
Proof. split; [cbn; tauto|]. split; vm_compute; reflexivity. Qed.

(** ** [module.paths] around the swaps *)

Lemma try_load_paths (rt : Runtime) (functionPath moduleDir : value)
    (before : list value) (g : global) :
  match try_load rt functionPath moduleDir before g with
  | (g', Ok _) => module_paths g' = before
  | (g', Throw _) => True
  end.
Proof.
  unfold try_load.
  destruct (require rt functionPath (set_module_paths [moduleDir] g))
    as [g' [handler|e]]; [|exact I].
  destruct (read rt handler "handler") as [h|e]; [|exact I].
  destruct (is_function h); [reflexivity|exact I].
Qed.

(** Around the load the request handler restores [module.paths], whether the
    load succeeds or fails, and also when there is nothing to load. *)
Lemma createHandler_restores_paths (rt : Runtime) (functions : registry)
    (req : request) (g : global) :
  module_paths (inv_global (createHandler rt functions req g))
    = module_paths g.
Proof.
  unfold createHandler.
  destruct (negb _); [reflexivity|].
  pose proof (try_load_paths rt
    (default VUndefined
       (get (lookup_function functions
               (property_key (first_segment
                                (strip_functions_prefix (req_path req)))))
            "functionPath"))
    (default VUndefined
       (get (lookup_function functions
               (property_key (first_segment
                                (strip_functions_prefix (req_path req)))))
            "moduleDir"))
    (module_paths g) g) as H.
  destruct (try_load _ _ _ _ _) as [g' [handler|e]]; [|reflexivity].
  unfold run_handler.
  destruct (sync_callbacks _ _ _) as [ops [[]|e]].
  - destruct (returned _) as [promise|e]; [|exact H].
    destruct (_ && _ && _); exact H.
  - destruct (returned _) as [promise|e']; [|exact H].
    destruct (_ && _); exact H.
Qed.

(** The eviction callback restores [module.paths] when the path resolves. *)
Lemma clearCache_restores_paths (rt : Runtime) (fn : entry) (g : global)
    (filename : string) :
  require_resolve rt [moduleDir fn] (functionPath fn) = Some filename ->
  clearCache rt fn g
    = ({| module_paths := module_paths g;
          require_cache := delete filename (require_cache g);
          required := required g |}, Ok tt).
Proof. intros H. unfold clearCache. cbn. now rewrite H. Qed.

(** C7 on the eviction callback: when [require.resolve] throws, as it does
    for a [functionPath] that has never resolved in the process (the scan
    registers a directory whose name ends in ".js" with the directory itself
    as [functionPath], and a directory without an index file does not
    resolve), the callback ends there and [module.paths] stays the
    one-element array it was swapped to. *)
Theorem clearCache_leaves_paths_swapped (rt : Runtime) (fn : entry)
    (g : global) :
  require_resolve rt [moduleDir fn] (functionPath fn) = None ->
  module_paths (fst (clearCache rt fn g)) = [moduleDir fn] /\
  snd (clearCache rt fn g) = Throw (module_not_found (functionPath fn)).
Proof. intros H. unfold clearCache. cbn. now rewrite H. Qed.

Lemma clearCache_leaves_paths_swapped_witness :
  module_paths
    (fst (clearCache (example_runtime idle)
            {| functionPath := "/site/functions/gone.js";
               moduleDir := VString "/site" |}
            example_global))
  = [VString "/site"] /\
  module_paths example_global = [VString "/usr/lib/node_modules"].
Proof.
  split; [|reflexivity].
  apply (clearCache_leaves_paths_swapped (example_runtime idle)
           {| functionPath := "/site/functions/gone.js";
              moduleDir := VString "/site" |} example_global).
  reflexivity.
Defined.

(** ** The completion callback *)

Lemma handleErr_truthy (rt : Runtime) (err : value) :
  truthy err = true ->
  handleErr rt err = (failure rt (ToString rt err), Ok tt).
Proof. intros H. destruct err; try discriminate; reflexivity. Qed.

Lemma handleErr_string (rt : Runtime) (text : string) :
  handleErr rt (VString text) = (failure rt text, Ok tt).
Proof. reflexivity. Qed.

Lemma read_object (rt : Runtime) (props : list (string * value)) (k : string) :
  read rt (VObject props) k = Ok (default VUndefined (lookup_prop k props)).
Proof. reflexivity. Qed.

Lemma read_defined (rt : Runtime) (v : value) (k : string) :
  v <> VUndefined -> v <> VNull ->
  read rt v k = Ok (default VUndefined (get v k)).
Proof. intros Hu Hn. destruct v; try reflexivity; contradiction. Qed.

Lemma setHeaders_accepted (rt : Runtime) (l : list (string * value)) :
  forallb (fun kv => header_accepted rt (fst kv) (snd kv)) l = true ->
  setHeaders rt false l = (set_all l, Ok tt).
Proof.
  induction l as [|kv l IH]; [reflexivity|].
  cbn [forallb]. intros H. apply andb_true_iff in H as [Hkv Hl].
  cbn [setHeaders]. unfold setHeader. rewrite Hkv, (IH Hl). reflexivity.
Qed.

(** A result that passes the two checks, with a status and headers the
    response accepts, is written as it stands. *)
Lemma createCallback_accepts (rt : Runtime) (err res statusCode : value)
    (text : string) :
  truthy err = false ->
  get res "statusCode" = Some statusCode ->
  number_truthy (Number rt statusCode) = true ->
  get res "body" = Some (VString text) ->
  sendable rt statusCode = true ->
  forallb (fun kv => header_accepted rt (fst kv) (snd kv))
    (for_in rt (default VUndefined (get res "headers"))) = true ->
  createCallback rt err res
    = (success rt statusCode
         (default VUndefined (get res "headers"))
         (default VUndefined (get res "isBase64Encoded")) text, Ok tt).
Proof.
  intros Herr Hsc Hnum Hbody Hsend Hhead.
  unfold createCallback, callback, read. rewrite Herr.
  destruct res; try discriminate; cbn in Hsc, Hbody;
    try (injection Hbody as Hbody; discriminate).
  cbn [get] in *. injection Hsc as Hsc. injection Hbody as Hbody.
  cbn [lift bind fst snd]. rewrite Hsc, Hbody, Hnum. cbn [negb].
  cbn [lift bind fst snd emit].
  change (default VUndefined (Some ?x)) with x in Hhead.
  rewrite (setHeaders_accepted rt _ Hhead). unfold write. rewrite Hsend.
  reflexivity.
Qed.

(** The failures of the callback that the code handles: each is one 500
    response with its diagnostic, and the callback returns. *)
Lemma createCallback_failures (rt : Runtime) (err res : value) :
  (truthy err = true ->
   createCallback rt err res = (failure rt (ToString rt err), Ok tt)) /\
  (truthy err = false -> res = VUndefined ->
   createCallback rt err res = (failure rt undefined_response, Ok tt)) /\
  (truthy err = false -> res <> VUndefined -> res <> VNull ->
   number_truthy (Number rt (default VUndefined (get res "statusCode")))
     = false ->
   createCallback rt err res
     = (failure rt "Incorrect function response statusCode", Ok tt)) /\
  (truthy err = false -> res <> VUndefined -> res <> VNull ->
   number_truthy (Number rt (default VUndefined (get res "statusCode")))
     = true ->
   is_string (default VUndefined (get res "body")) = false ->
   createCallback rt err res
     = (failure rt "Incorrect function response body", Ok tt)).
Proof.
  unfold createCallback, callback. repeat split.
  - intros H. rewrite H. now apply handleErr_truthy.
  - now intros -> ->.
  - intros -> Hu Hn Hnum. rewrite (read_defined _ _ _ Hu Hn).
    destruct res; try contradiction; cbn in *; try rewrite Hnum;
      reflexivity.
  - intros -> Hu Hn Hnum Hbody. rewrite !(read_defined _ _ _ Hu Hn).
    destruct res; try contradiction; cbn in *; try discriminate.
    rewrite Hnum. cbn.
    destruct (default VUndefined (lookup_prop "body" props));
      try reflexivity; discriminate.
Qed.

Lemma lookup_prop_In {A} (k : string) (v : A) (props : list (string * A)) :
  lookup_prop k props = Some v -> In (k, v) props.
Proof.
  induction props as [|[k' v'] props IH]; [discriminate|].
  cbn [lookup_prop]. destruct (String.eqb_spec k k') as [->|].
  - intros [= ->]. now left.
  - intros H. right. now apply IH.
Qed.

Lemma in_range_sendable (rt : Runtime) (n : number) :
  in_range n = true ->
  sendable rt (VNumber n) = true /\ number_truthy n = true.
Proof.
  destruct n as [|z]; [discriminate|]. cbn. intros H.
  apply andb_true_iff in H as [Hlo Hhi].
  apply Z.leb_le in Hlo. apply Z.leb_le in Hhi.
  assert (E : to_int32 z = z).
  { unfold to_int32. rewrite Z.mod_small by lia. lia. }
  rewrite E. split.
  - apply andb_true_iff. split; now apply Z.leb_le.
  - apply negb_true_iff. apply Z.eqb_neq. lia.
Qed.

Section Observations.
Variables (rt : Runtime) (statusCode headers isBase64Encoded : value)
          (text : string).

Lemma statuses_setHeaders (l : list (string * value)) :
  statuses (set_all l) = [].
Proof. induction l; [reflexivity|assumption]. Qed.

Lemma bodies_setHeaders (l : list (string * value)) :
  bodies (set_all l) = [].
Proof. induction l; [reflexivity|assumption]. Qed.

Lemma ends_setHeaders (l : list (string * value)) : ends (set_all l) = 0.
Proof. induction l; [reflexivity|assumption]. Qed.

Lemma header_sets_setHeaders (l : list (string * value)) :
  header_sets (set_all l) = l.
Proof.
  induction l as [|[k v] l IH]; [reflexivity|].
  change (header_sets (set_all ((k, v) :: l)))
    with ((k, v) :: header_sets (set_all l)).
  now rewrite IH.
Qed.

Lemma statuses_success :
  statuses (success rt statusCode headers isBase64Encoded text) = [statusCode].
Proof.
  unfold success, statuses. cbn. rewrite omap_app.
  fold (statuses (set_all (for_in rt headers))).
  now rewrite statuses_setHeaders.
Qed.

Lemma header_sets_success :
  header_sets (success rt statusCode headers isBase64Encoded text)
    = for_in rt headers.
Proof.
  unfold success, header_sets. cbn. rewrite omap_app.
  fold (header_sets (set_all (for_in rt headers))).
  rewrite header_sets_setHeaders. cbn. apply app_nil_r.
Qed.

Lemma bodies_success :
  bodies (success rt statusCode headers isBase64Encoded text)
    = [if truthy isBase64Encoded
       then VBuffer (Base64.decode text) else VString text].
Proof.
  unfold success, bodies. cbn. rewrite omap_app.
  fold (bodies (set_all (for_in rt headers))).
  now rewrite bodies_setHeaders.
Qed.

Lemma ends_success :
  ends (success rt statusCode headers isBase64Encoded text) = 1.
Proof.
  unfold success, ends. cbn. rewrite List.filter_app, length_app.
  fold (ends (set_all (for_in rt headers))).
  now rewrite ends_setHeaders.
Qed.

End Observations.

(** C2, as the code has it: a result whose [statusCode] is a number from 100
    to 999, whose [body] is a string and whose headers [setHeader] accepts
    is answered with that status, one [setHeader] per key of [headers] with
    the value under that key, and the body: decoded from base64 when
    [isBase64Encoded] is true (truthy), verbatim when it is absent or false
    (falsy); then the response is ended and the callback returns. *)
Theorem valid_result_is_written (rt : Runtime) (err : value)
    (props : list (string * value)) (n : number) (text : string) :
  truthy err = false ->
  lookup_prop "statusCode" props = Some (VNumber n) ->
  in_range n = true ->
  lookup_prop "body" props = Some (VString text) ->
  forallb (fun kv => header_accepted rt (fst kv) (snd kv))
    (for_in rt (default VUndefined (lookup_prop "headers" props))) = true ->
  createCallback rt err (VObject props)
    = (success rt (VNumber n)
         (default VUndefined (lookup_prop "headers" props))
         (default VUndefined (lookup_prop "isBase64Encoded" props)) text,
       Ok tt) /\
  statuses (fst (createCallback rt err (VObject props))) = [VNumber n] /\
  (forall headers key v,
      lookup_prop "headers" props = Some (VObject headers) ->
      lookup_prop key headers = Some v ->
      In (key, v) (header_sets (fst (createCallback rt err (VObject props))))) /\
  (truthy (default VUndefined (lookup_prop "isBase64Encoded" props)) = true ->
   bodies (fst (createCallback rt err (VObject props)))
     = [VBuffer (Base64.decode text)]) /\
  (truthy (default VUndefined (lookup_prop "isBase64Encoded" props)) = false ->
   bodies (fst (createCallback rt err (VObject props))) = [VString text]) /\
  ends (fst (createCallback rt err (VObject props))) = 1.
Proof.
  intros Herr Hsc Hrange Hbody Hhead.
  destruct (in_range_sendable rt n Hrange) as (Hsend & Hnum).
  assert (E : createCallback rt err (VObject props)
              = (success rt (VNumber n)
                   (default VUndefined (lookup_prop "headers" props))
                   (default VUndefined (lookup_prop "isBase64Encoded" props))
                   text, Ok tt)).
  { apply createCallback_accepts; cbn [get]; try rewrite Hsc;
      try rewrite Hbody; auto. }
  rewrite E. cbn [fst].
  rewrite statuses_success, header_sets_success, bodies_success, ends_success.
  split; [reflexivity|]. split; [reflexivity|]. split; [|split; [|split]].
  - intros headers key v Hheaders Hkey. rewrite Hheaders. cbn.
    apply in_map_iff. exists (key, v). cbn.
    rewrite Hkey. split; [reflexivity|]. now apply lookup_prop_In.
  - now intros ->.
  - now intros ->.
  - reflexivity.
Qed.

Lemma valid_result_is_written_witness :
  createCallback (example_runtime idle) VNull
    (VObject [("statusCode", VNumber (Num 201));
              ("headers", VObject [("content-type", VString "text/plain")]);
              ("body", VString "aGk=");
              ("isBase64Encoded", VBool true)])
  = ([SetStatusCode (VNumber (Num 201));
      SetHeader "content-type" (VString "text/plain");
      Write (VBuffer ["h"%byte; "i"%byte]);
      EndResponse None], Ok tt).
Proof.
  exact (proj1 (valid_result_is_written (example_runtime idle) VNull
                  [("statusCode", VNumber (Num 201));
                   ("headers",
                    VObject [("content-type", VString "text/plain")]);
                   ("body", VString "aGk=");
                   ("isBase64Encoded", VBool true)]
                  (Num 201) "aGk=" eq_refl eq_refl eq_refl eq_refl eq_refl)).
Defined.

(** C2 as stated fails for the number 0: the callback answers 500 with the
    statusCode diagnostic instead of the status it was given. (A number
    outside 100..999 such as 1000 passes the callback's check and is then
    refused by [response.write], which throws: nothing is written.) *)
Lemma zero_status_is_refused :
  createCallback (example_runtime idle) VNull
    (VObject [("statusCode", VNumber (Num 0)); ("body", VString "ok")])
  = (failure (example_runtime idle) "Incorrect function response statusCode",
     Ok tt) /\
  statuses
    (fst (createCallback (example_runtime idle) VNull
            (VObject [("statusCode", VNumber (Num 0)); ("body", VString "ok")])))
  <> [VNumber (Num 0)] /\
  createCallback (example_runtime idle) VNull
    (VObject [("statusCode", VNumber (Num 1000)); ("body", VString "ok")])
  = ([SetStatusCode (VNumber (Num 1000))],
     Throw (RangeError "Invalid status code")).
Proof. split; [reflexivity|]. split; [discriminate|reflexivity]. Qed.

(** C3 at a null result: [callback(null, null)] reads [statusCode] of null
    and throws; nothing is written to the response. An async handler that
    resolves to null gets there through [promiseCallback], and so does a
    promise rejected without a reason, since the rejection is passed on as
    [callback(err, null)]: the exception is left uncaught and the request is
    never answered. *)
Theorem null_result_is_not_answered (rt : Runtime) (g : global) :
  createCallback rt VNull VNull
    = ([], Throw (TypeError "Cannot read property 'statusCode' of null")) /\
  final_response (complete rt (run_handler rt g resolves_null)) = [] /\
  final_uncaught (complete rt (run_handler rt g resolves_null))
    = [TypeError "Cannot read property 'statusCode' of null"] /\
  final_response (complete rt (run_handler rt g rejects_without_reason)) = [] /\
  final_uncaught (complete rt (run_handler rt g rejects_without_reason))
    = [TypeError "Cannot read property 'statusCode' of null"].
Proof. repeat split. Qed.

(** ** Exactly one response per completion *)

Lemma written_once_failure (rt : Runtime) (text : string) :
  written_once (failure rt text).
Proof. repeat split. Qed.

Lemma written_once_success (rt : Runtime)
    (statusCode headers isBase64Encoded : value) (text : string) :
  written_once (success rt statusCode headers isBase64Encoded text).
Proof.
  unfold written_once.
  now rewrite statuses_success, bodies_success, ends_success.
Qed.

Lemma get_defined (v : value) (k : string) :
  v <> VUndefined -> v <> VNull ->
  get v k = Some (default VUndefined (get v k)).
Proof. intros Hu Hn. destruct v; try reflexivity; contradiction. Qed.

(** A completion the response accepts is answered by exactly one response,
    and the callback returns. *)
Lemma createCallback_written_once (rt : Runtime) (c : value * value) :
  answered rt c = true ->
  written_once (fst (createCallback rt (fst c) (snd c))) /\
  snd (createCallback rt (fst c) (snd c)) = Ok tt.
Proof.
  destruct c as [err res]. unfold answered. cbn [fst snd]. intros Hans.
  destruct (createCallback_failures rt err res) as (Herr & Hundef & Hsc & Hbody).
  destruct (truthy err) eqn:Etruthy.
  { rewrite Herr by reflexivity. split; [apply written_once_failure|easy]. }
  cbn [orb] in Hans.
  assert (res = VUndefined \/ res <> VUndefined) as [->|Hu]
    by (destruct res; (now left) || (now right)).
  { rewrite Hundef by reflexivity.
    split; [apply written_once_failure|easy]. }
  assert (Hnull : res <> VNull) by (intros ->; discriminate).
  assert (Hans' :
    negb (number_truthy
            (Number rt (default VUndefined (get res "statusCode"))))
    || negb (is_string (default VUndefined (get res "body")))
    || (sendable rt (default VUndefined (get res "statusCode"))
        && forallb (fun kv => header_accepted rt (fst kv) (snd kv))
             (for_in rt (default VUndefined (get res "headers")))) = true)
    by (destruct res; try contradiction; exact Hans).
  clear Hans.
  destruct (number_truthy
              (Number rt (default VUndefined (get res "statusCode"))))
    eqn:Enum.
  2:{ rewrite Hsc by auto. split; [apply written_once_failure|easy]. }
  destruct (default VUndefined (get res "body")) eqn:Ebody;
    try (rewrite Hbody by (auto; now rewrite Ebody);
         split; [apply written_once_failure|easy]).
  cbn in Hans'. apply andb_true_iff in Hans' as [Hsend Hhead].
  rewrite (createCallback_accepts rt err res
             (default VUndefined (get res "statusCode")) s); auto.
  - split; [apply written_once_success|easy].
  - now apply get_defined.
  - rewrite <- Ebody. now apply get_defined.
Qed.

Lemma plain_object (props : list (string * value)) (n : number) :
  lookup_prop "statusCode" props = Some (VNumber n) ->
  plain (VObject props) = true ->
  number_truthy n = false
  \/ is_string (default VUndefined (lookup_prop "body" props)) = false
  \/ (in_range n = true /\ no_headers props = true).
Proof.
  intros Hsc. unfold plain. rewrite Hsc. intros H.
  apply orb_true_iff in H as [H|H].
  - apply orb_true_iff in H as [H|H].
    + left. now apply negb_true_iff.
    + right. left. now apply negb_true_iff.
  - right. right. now apply andb_true_iff.
Qed.

Lemma no_headers_for_in (rt : Runtime) (props : list (string * value)) :
  no_headers props = true ->
  for_in rt (default VUndefined (lookup_prop "headers" props)) = [].
Proof.
  unfold no_headers.
  destruct (lookup_prop "headers" props) as [[| | | | | | | | | |[|]]|];
    try discriminate; reflexivity.
Qed.

(** A readable completion is answered in the same way whatever has been
    sent before. *)
Lemma callback_readable (rt : Runtime) (sent : bool) (c : value * value) :
  readable c ->
  callback rt sent (fst c) (snd c) = createCallback rt (fst c) (snd c).
Proof.
  destruct c as [err res]. unfold readable, createCallback, callback.
  cbn [fst snd]. intros Hread.
  destruct (truthy err); [reflexivity|].
  destruct Hread as [|Hplain]; [discriminate|].
  destruct res; try discriminate; try reflexivity.
  unfold read. cbn [get lift bind fst snd].
  destruct (lookup_prop "statusCode" props) as [sc|] eqn:Esc;
    [|reflexivity].
  destruct sc; try (unfold plain in Hplain; rewrite Esc in Hplain;
                    discriminate); try reflexivity.
  cbn [default from_option id Number].
  destruct (plain_object props n Esc Hplain) as [Hn|[Hb|[Hr Hh]]].
  - now rewrite Hn.
  - destruct (number_truthy n); [|reflexivity]. cbn [negb].
    destruct (default VUndefined (lookup_prop "body" props));
      try reflexivity; discriminate.
  - destruct (in_range_sendable rt n Hr) as (Hsend & Hnum).
    rewrite Hnum. cbn [negb].
    destruct (default VUndefined (lookup_prop "body" props));
      try reflexivity.
    cbn [lift bind fst snd emit]. rewrite (no_headers_for_in rt props Hh).
    unfold write. rewrite Hsend. now destruct sent.
Qed.

Lemma readable_answered (rt : Runtime) (c : value * value) :
  readable c -> answered rt c = true.
Proof.
  destruct c as [err res]. unfold readable, answered. cbn [fst snd].
  intros [->|Hplain]; [reflexivity|].
  apply orb_true_iff. right.
  destruct res; try discriminate; try reflexivity.
  cbn [get default from_option id].
  destruct (lookup_prop "statusCode" props) as [sc|] eqn:Esc;
    [|reflexivity].
  destruct sc; try (unfold plain in Hplain; rewrite Esc in Hplain;
                    discriminate); try reflexivity.
  cbn [default from_option id Number].
  destruct (plain_object props n Esc Hplain) as [Hn|[Hb|[Hr Hh]]].
  - now rewrite Hn.
  - rewrite Hb. cbn. now rewrite orb_true_r.
  - destruct (in_range_sendable rt n Hr) as (Hsend & Hnum).
    rewrite Hsend, (no_headers_for_in rt props Hh). cbn.
    now rewrite !orb_true_r.
Qed.

Lemma responses_count (rt : Runtime) (cs : list (value * value)) :
  Forall readable cs ->
  length (statuses (responses rt cs)) = length cs /\
  length (bodies (responses rt cs)) = length cs /\
  ends (responses rt cs) = length cs.
Proof.
  induction 1 as [|c cs Hc _ (IHs & IHb & IHe)]; [easy|].
  destruct (createCallback_written_once rt c (readable_answered rt c Hc))
    as ((Hs & Hb & He) & _).
  unfold responses, statuses, bodies, ends in *. cbn [flat_map].
  rewrite !omap_app, List.filter_app, !length_app.
  rewrite Hs, Hb, He, IHs, IHb, IHe. easy.
Qed.

Lemma sync_callbacks_readable (rt : Runtime) (calls : list (value * value)) :
  Forall readable calls ->
  forall sent, sync_callbacks rt sent calls = (responses rt calls, Ok tt).
Proof.
  induction 1 as [|[err res] calls Hc _ IH]; intros sent; [reflexivity|].
  destruct (createCallback_written_once rt (err, res)
              (readable_answered rt _ Hc)) as (_ & Hret).
  pose proof (callback_readable rt sent (err, res) Hc) as Hany.
  cbn [fst snd] in Hret, Hany. cbn [sync_callbacks]. rewrite Hany.
  unfold bind.
  destruct (createCallback rt err res) as [ops r] eqn:E.
  cbn [snd] in Hret. subst r. rewrite IH. unfold responses. cbn [flat_map].
  cbn [fst snd]. now rewrite E.
Qed.

Lemma settle_readable (rt : Runtime) (attached : bool) (evs : list event) :
  Forall readable (flat_map (completion_of attached) evs) ->
  forall sent,
    settle rt attached sent evs
    = (responses rt (flat_map (completion_of attached) evs), []).
Proof.
  induction evs as [|ev evs IH]; intros Hall sent; [reflexivity|].
  cbn [flat_map] in Hall. rewrite Forall_app in Hall.
  destruct Hall as [Hev Hevs].
  cbn [settle flat_map]. unfold responses. rewrite flat_map_app.
  assert (E : fire rt attached sent ev
              = (flat_map (fun c => fst (createCallback rt (fst c) (snd c)))
                   (completion_of attached ev), Ok tt)).
  { assert (One : forall c, readable c ->
               callback rt sent (fst c) (snd c)
               = (fst (createCallback rt (fst c) (snd c)) ++ [], Ok tt)).
    { intros c Hc. rewrite (callback_readable rt sent c Hc), app_nil_r.
      destruct (createCallback_written_once rt c (readable_answered rt c Hc))
        as (_ & Hret).
      destruct (createCallback rt (fst c) (snd c)) as [ops r].
      cbn in *. now subst. }
    destruct ev as [err res|[data|err]]; cbn [fire completion_of] in *.
    - apply Forall_cons in Hev as [Hc _]. exact (One (err, res) Hc).
    - destruct attached; [|reflexivity].
      apply Forall_cons in Hev as [Hc _]. exact (One (VNull, data) Hc).
    - destruct attached; [|reflexivity].
      apply Forall_cons in Hev as [Hc _]. exact (One (err, VNull) Hc). }
  rewrite E. rewrite (IH Hevs). reflexivity.
Qed.

Lemma run_handler_readable (rt : Runtime) (g : global) (b : behaviour) :
  Forall readable (sync_calls b) ->
  inv_response (run_handler rt g b) = responses rt (sync_calls b) /\
  inv_attached (run_handler rt g b) = attaches b /\
  inv_later (run_handler rt g b) = later b /\
  inv_global (run_handler rt g b) = g.
Proof.
  intros H. unfold run_handler, attaches.
  rewrite (sync_callbacks_readable rt _ H).
  destruct (returned b) as [promise|e]; [|now destruct (sync_calls b)].
  destruct (sync_calls b) as [|c calls]; [easy|].
  cbn [andb]. unfold promiseCallback.
  destruct (truthy promise && is_thenable promise); easy.
Qed.

(** The response of an invocation is the responses to its completions, one
    after the other, as long as the completions are readable. *)
Lemma invocation_responses (rt : Runtime) (g : global) (b : behaviour) :
  Forall readable (completions b) ->
  final_response (complete rt (run_handler rt g b))
    = responses rt (completions b) /\
  final_uncaught (complete rt (run_handler rt g b)) = [].
Proof.
  unfold completions. rewrite Forall_app. intros [Hsync Hlater].
  destruct (run_handler_readable rt g b Hsync) as (Hops & Hatt & Hlat & _).
  unfold complete. rewrite Hatt, Hlat, Hops, (settle_readable rt _ _ Hlater).
  cbn. unfold responses. now rewrite flat_map_app.
Qed.





(** The same handler through the dispatcher. *)
Example deferred_only_through_dispatch :
  final_response (example_invocation deferred_only)
    = [SetStatusCode (VNumber (Num 200)); Write (VString "done");
       EndResponse None] /\
  final_thrown (example_invocation deferred_only) = None.
Proof. split; vm_compute; reflexivity. Qed.


(** ** The guard against using both styles *)


(** The flag is read once, when the handler returns: a handler that has not
    called back by then passes the guard whatever it does later, and a
    promise it returned is attached to the callback. *)
Lemma guard_passes_without_early_call (rt : Runtime) (g : global)
    (b : behaviour) (promise : value) :
  sync_calls b = [] ->
  returned b = Ok promise ->
  inv_thrown (run_handler rt g b) = None /\
  inv_attached (run_handler rt g b) = promiseCallback promise /\
  inv_later (run_handler rt g b) = later b.
Proof.
  intros Hcalls Hret. unfold run_handler. rewrite Hcalls, Hret. easy.
Qed.

(** C4 on an async handler that also calls back after it has returned: both
    completions fire, none raises the error of the guard, and the response is
    written and ended twice. *)
Theorem late_callback_passes_the_guard :
  final_thrown (example_invocation both_later) = None /\
  final_uncaught (example_invocation both_later) = [] /\
  bodies (final_response (example_invocation both_later))
    = [VString "from the callback"; VString "from the promise"] /\
  ends (final_response (example_invocation both_later)) = 2.
Proof. repeat split; vm_compute; reflexivity. Qed.

(** * Further properties *)

(** ** Handler names *)

Lemma split_on_segment (sep : ascii) (f rest : string) :
  contains sep f = false ->
  split_on sep (f +:+ String sep rest) = f :: split_on sep rest.
Proof.
  induction f as [|c f IH]; intros H.
  - rewrite append_empty. cbn [split_on]. now rewrite Ascii.eqb_refl.
  - cbn [contains] in H. apply orb_false_iff in H as [Hc Hf].
    rewrite append_String. cbn [split_on].
    rewrite Ascii.eqb_sym in Hc. rewrite Hc, (IH Hf). reflexivity.
Qed.

Lemma first_segment_then (f rest : string) :
  f <> "" -> contains "/" f = false ->
  first_segment (String "/" (f +:+ String "/" rest)) = Some f.
Proof.
  intros Hne Hf. unfold first_segment. cbn [split_on].
  rewrite Ascii.eqb_refl, (split_on_segment _ _ _ Hf). cbn.
  destruct (String.eqb_spec f ""); [contradiction|reflexivity].
Qed.

Lemma first_segment_alone (f : string) :
  f <> "" -> contains "/" f = false -> first_segment f = Some f.
Proof.
  intros Hne Hf. unfold first_segment. rewrite (split_on_absent _ _ Hf). cbn.
  destruct (String.eqb_spec f ""); [contradiction|reflexivity].
Qed.

Lemma only_slashes_no_segment (s : string) :
  only_slashes s = true -> first_segment s = None.
Proof.
  unfold first_segment. induction s as [|c s IH]; [reflexivity|].
  cbn [only_slashes split_on]. intros H.
  apply andb_true_iff in H as [Hc Hs]. rewrite Hc. cbn. now apply IH.
Qed.

Lemma only_slashes_no_prefix (s : string) :
  only_slashes s = true -> strip_functions_prefix s = s.
Proof.
  destruct s as [|a [|c rest]]; try reflexivity.
  cbn [only_slashes]. intros H.
  apply andb_true_iff in H as [_ H]. apply andb_true_iff in H as [_ H].
  unfold strip_functions_prefix.
  destruct (Ascii.eqb a "/" && negb (is_line_terminator c)); [|reflexivity].
  destruct rest as [|d rest]; [reflexivity|].
  cbn [only_slashes] in H. apply andb_true_iff in H as [Hd _].
  apply Ascii.eqb_eq in Hd. subst d. reflexivity.
Qed.

(** X1: a path made of slashes only (the root path) has no handler name:
    the lookup key is "undefined", and unless a function of that name is
    registered the answer is the 404. The same holds behind the functions
    prefix. *)
Theorem root_path_is_not_found (rt : Runtime) (functions : registry)
    (req : request) (g : global) :
  only_slashes (req_path req) = true ->
  own functions !! "undefined" = None ->
  proto functions = None ->
  handler_name (req_path req) = None /\
  handler_name ("/.netlify/functions" +:+ req_path req) = None /\
  createHandler rt functions req g = finished g (not_found, Ok tt) [].
Proof.
  intros Hpath Hown Hproto.
  assert (Hname : handler_name (req_path req) = None).
  { unfold handler_name. rewrite (only_slashes_no_prefix _ Hpath).
    now apply only_slashes_no_segment. }
  split; [exact Hname|]. split.
  - unfold handler_name.
    change ("/.netlify/functions" +:+ req_path req)
      with (String "/" (String "." ("netlify/functions" +:+ req_path req))).
    rewrite strip_functions_prefix_any by reflexivity.
    now apply only_slashes_no_segment.
  - apply unknown_name_is_404. rewrite Hname. cbn [property_key default].
    apply lookup_function_unknown; auto; try discriminate.
    cbn. intuition discriminate.
Qed.

Lemma root_path_is_not_found_witness :
  createHandler (example_runtime idle) example_functions (example_request "/")
    example_global
  = finished example_global (not_found, Ok tt) [].
Proof.
  apply (root_path_is_not_found (example_runtime idle) example_functions
           (example_request "/") example_global); reflexivity.
Defined.

(** X2: behind the functions prefix only the first segment names the
    handler: whatever follows the next slash is ignored by the dispatch. *)
Theorem sub_paths_reach_the_same_handler (f rest : string) :
  f <> "" ->
  contains "/" f = false ->
  handler_name ("/.netlify/functions/" +:+ f +:+ "/" +:+ rest) = Some f.
Proof.
  intros Hne Hf. unfold handler_name.
  change ("/.netlify/functions/" +:+ f +:+ "/" +:+ rest)
    with (String "/" (String "."
            ("netlify/functions" +:+ String "/" (f +:+ String "/" rest)))).
  rewrite strip_functions_prefix_any by reflexivity.
  now apply first_segment_then.
Qed.

Lemma sub_paths_reach_the_same_handler_witness :
  handler_name "/.netlify/functions/hello/world/again" = Some "hello".
Proof.
  apply (sub_paths_reach_the_same_handler "hello" "world/again");
    [discriminate|reflexivity].
Defined.

(** X3: the pattern of the prefix ends with [functions], without a slash or
    an end of segment after it: a path that continues directly after the
    prefix names the handler with what follows. *)
Theorem prefix_needs_no_separator (c : ascii) (f : string) :
  is_line_terminator c = false ->
  f <> "" ->
  contains "/" f = false ->
  handler_name (String "/" (String c ("netlify/functions" +:+ f))) = Some f.
Proof.
  intros Hc Hne Hf. unfold handler_name.
  rewrite (strip_functions_prefix_any _ _ Hc).
  now apply first_segment_alone.
Qed.

Lemma prefix_needs_no_separator_witness :
  handler_name "/.netlify/functionshello" = Some "hello".
Proof.
  apply (prefix_needs_no_separator "." "hello");
    [reflexivity|discriminate|reflexivity].
Defined.

(** ** The query string *)





(** ** The registry scan, entry by entry *)

Lemma scan_entry_entry_of (fsys : FileSystem) (dir file : string)
    (functions : registry) :
  scan_entry fsys dir functions file
  = match entry_of fsys dir file with
    | Some (name, e) => assign name e functions
    | None => functions
    end.
Proof.
  unfold scan_entry, entry_of.
  destruct (String.eqb dir "node_modules"); [reflexivity|].
  destruct (findHandler fsys (resolve_join fsys dir file)); [|reflexivity].
  destruct (String.eqb (extname fsys (resolve_join fsys dir file)) ".js");
    [reflexivity|].
  now destruct (isDirectory fsys (resolve_join fsys dir file)).
Qed.

Lemma own_assign (name key : string) (e : entry) (functions : registry) :
  own (assign name e functions) !! key
  = if String.eqb name "__proto__" then own functions !! key
    else if String.eqb name key then Some e
    else own functions !! key.
Proof.
  unfold assign. destruct (String.eqb name "__proto__"); [reflexivity|].
  cbn [own]. destruct (String.eqb_spec name key) as [->|Hne].
  - apply lookup_insert_eq.
  - now apply lookup_insert_ne.
Qed.

(** Entries that do not produce [name] leave what is registered under it. *)
Lemma scan_keeps_name (fsys : FileSystem) (dir name : string)
    (files : list string) (functions : registry) :
  (forall file e, In file files -> entry_of fsys dir file <> Some (name, e)) ->
  own (fold_left (scan_entry fsys dir) files functions) !! name
  = own functions !! name.
Proof.
  revert functions. induction files as [|file files IH]; intros functions H;
    [reflexivity|].
  cbn [fold_left]. rewrite IH by (intros f e Hin; apply H; now right).
  rewrite scan_entry_entry_of.
  destruct (entry_of fsys dir file) as [[name' e]|] eqn:E; [|reflexivity].
  rewrite own_assign.
  destruct (String.eqb name' "__proto__"); [reflexivity|].
  destruct (String.eqb_spec name' name) as [->|]; [|reflexivity].
  destruct (H file e); [now left|exact E].
Qed.

Lemma last_scanned_entry_in (fsys : FileSystem) (dir file name : string)
    (e : entry) (before after : list string) :
  readdirSync fsys dir = before ++ file :: after ->
  entry_of fsys dir file = Some (name, e) ->
  name <> "__proto__" ->
  (forall file' e', In file' after ->
                    entry_of fsys dir file' <> Some (name, e')) ->
  own (createHandler_functions fsys dir) !! name = Some e.
Proof.
  intros Hdir Hentry Hname Hafter. unfold createHandler_functions.
  rewrite Hdir, fold_left_app. cbn [fold_left].
  rewrite (scan_keeps_name _ _ _ _ _ Hafter).
  rewrite scan_entry_entry_of, Hentry, own_assign.
  destruct (String.eqb_spec name "__proto__"); [contradiction|].
  now rewrite String.eqb_refl.
Qed.

(** X5: the last directory entry that produces a name owns it: whatever
    earlier entries registered under that name is overwritten, without an
    error. *)
Theorem last_scanned_entry_wins (fsys : FileSystem) (dir file name : string)
    (e : entry) (before after : list string) :
  readdirSync fsys dir = before ++ file :: after ->
  entry_of fsys dir file = Some (name, e) ->
  name <> "__proto__" ->
  (forall file' e', In file' after ->
                    entry_of fsys dir file' <> Some (name, e')) ->
  own (createHandler_functions fsys dir) !! name = Some e.
Proof. apply last_scanned_entry_in. Qed.

Lemma last_scanned_entry_wins_witness :
  own (createHandler_functions example_fs "functions") !! "hello"
  = Some {| functionPath := "/site/functions/hello.js";
            moduleDir := VString "/site" |}.
Proof.
  apply (last_scanned_entry_wins example_fs "functions" "hello.js" "hello" _
           [] ["node_modules"; "notes"]); try reflexivity; try discriminate.
  intros file' e' [<-|[<-|[]]]; discriminate.
Defined.

(** X6: every function of the registry comes from an immediate entry of the
    scanned directory, under the name and with the paths the scan derives
    for that entry; in particular nothing is registered when the root is
    named node_modules. *)
Theorem registered_functions_come_from_entries (fsys : FileSystem)
    (dir name : string) (e : entry) :
  own (createHandler_functions fsys dir) !! name = Some e ->
  dir <> "node_modules" /\
  exists file,
    In file (readdirSync fsys dir) /\ entry_of fsys dir file = Some (name, e).
Proof.
  intros H.
  assert (Hex : exists file,
             In file (readdirSync fsys dir) /\
             entry_of fsys dir file = Some (name, e)).
  { revert H. unfold createHandler_functions.
    assert (G : forall files functions,
               own (fold_left (scan_entry fsys dir) files functions) !! name
                 = Some e ->
               own functions !! name = Some e \/
               exists file, In file files /\
                            entry_of fsys dir file = Some (name, e)).
    { induction files as [|file files IH]; intros functions H; [now left|].
      cbn [fold_left] in H. destruct (IH _ H) as [Hstep|(f & Hin & Hf)].
      - rewrite scan_entry_entry_of in Hstep.
        destruct (entry_of fsys dir file) as [[name' e']|] eqn:E;
          [|now left].
        rewrite own_assign in Hstep.
        destruct (String.eqb name' "__proto__"); [now left|].
        destruct (String.eqb_spec name' name) as [->|]; [|now left].
        injection Hstep as ->. right. exists file. split; [now left|exact E].
      - right. exists f. split; [now right|exact Hf]. }
    intros H. destruct (G _ _ H) as [Hempty|Hex]; [|exact Hex].
    cbn in Hempty. now rewrite lookup_empty in Hempty. }
  split; [|exact Hex].
  destruct Hex as (file & _ & Hentry). unfold entry_of in Hentry.
  destruct (String.eqb_spec dir "node_modules"); [discriminate|assumption].
Qed.

Lemma registered_functions_come_from_entries_witness :
  "functions" <> "node_modules" /\
  exists file,
    In file (readdirSync example_fs "functions") /\
    entry_of example_fs "functions" file
      = Some ("hello", {| functionPath := "/site/functions/hello.js";
                          moduleDir := VString "/site" |}).
Proof.
  apply (registered_functions_come_from_entries example_fs "functions" "hello").
  vm_compute. reflexivity.
Defined.

Lemma length_append (s t : string) :
  String.length (s +:+ t) = String.length s + String.length t.
Proof.
  induction s as [|c s IH]; [reflexivity|].
  rewrite append_String. cbn [String.length]. now rewrite IH.
Qed.

Lemma strip_js_suffix_added (name : string) :
  strip_js_suffix (name +:+ ".js") = name.
Proof.
  induction name as [|c name IH]; [reflexivity|].
  rewrite append_String. cbn [strip_js_suffix]. rewrite IH.
  destruct (String.eqb_spec (String c (name +:+ ".js")) ".js") as [E|];
    [|reflexivity].
  exfalso. apply (f_equal String.length) in E. cbn in E.
  rewrite length_append in E. cbn in E. lia.
Qed.

(** X7: a file [name.js] of a functions directory (one not given as
    "node_modules") in which [findHandler] finds a handler, with [name]
    non-empty, without a slash and other than "__proto__", and with no later
    directory entry that the scan registers under the same name, is served
    under [name]: the dispatcher resolves [/.netlify/functions/name] and
    [/name] to the entry the scan made of the file, with the resolved path
    of the file as its [functionPath]. *)
Theorem scanned_file_is_dispatched (fsys : FileSystem) (dir name : string)
    (handlerPath : string) (before after : list string) :
  dir <> "node_modules" ->
  readdirSync fsys dir = before ++ (name +:+ ".js") :: after ->
  findHandler fsys (resolve_join fsys dir (name +:+ ".js")) = Some handlerPath ->
  extname fsys (resolve_join fsys dir (name +:+ ".js")) = ".js" ->
  name <> "" -> contains "/" name = false -> name <> "__proto__" ->
  (forall file' e', In file' after ->
                    entry_of fsys dir file' <> Some (name, e')) ->
  lookup_function (createHandler_functions fsys dir)
    (property_key (handler_name ("/.netlify/functions/" +:+ name)))
  = VObject
      [("functionPath", VString (resolve_join fsys dir (name +:+ ".js")));
       ("moduleDir", findModuleDir fsys (resolve_join fsys dir (name +:+ ".js")))]
  /\
  lookup_function (createHandler_functions fsys dir)
    (property_key (handler_name ("/" +:+ name)))
  = lookup_function (createHandler_functions fsys dir)
      (property_key (handler_name ("/.netlify/functions/" +:+ name))).
Proof.
  intros Hdir Hread Hfind Hext Hne Hslash Hproto Hafter.
  assert (Hprefixed : handler_name ("/.netlify/functions/" +:+ name)
                      = Some name).
  { unfold handler_name.
    change ("/.netlify/functions/" +:+ name)
      with (String "/" (String "." ("netlify/functions" +:+ String "/" name))).
    rewrite strip_functions_prefix_any by reflexivity.
    now apply first_segment_single. }
  assert (Hbare : handler_name ("/" +:+ name) = Some name).
  { unfold handler_name. change ("/" +:+ name) with (String "/" name).
    rewrite (strip_functions_prefix_bare _ Hslash).
    now apply first_segment_single. }
  rewrite Hprefixed, Hbare. split; [|reflexivity].
  assert (Hown : own (createHandler_functions fsys dir) !! name
                 = Some {| functionPath := resolve_join fsys dir (name +:+ ".js");
                           moduleDir :=
                             findModuleDir fsys
                               (resolve_join fsys dir (name +:+ ".js")) |}).
  { apply (last_scanned_entry_in fsys dir (name +:+ ".js") name _ before after);
      auto.
    unfold entry_of.
    destruct (String.eqb_spec dir "node_modules"); [contradiction|].
    rewrite Hfind, Hext. cbn. now rewrite strip_js_suffix_added. }
  change (property_key (Some name)) with name.
  unfold lookup_function. now rewrite Hown.
Qed.

Lemma scanned_file_is_dispatched_witness :
  lookup_function (createHandler_functions example_fs "functions")
    (property_key (handler_name "/.netlify/functions/hello"))
  = VObject [("functionPath", VString "/site/functions/hello.js");
             ("moduleDir", VString "/site")].
Proof.
  refine (proj1 (scanned_file_is_dispatched example_fs "functions" "hello"
                   "/site/functions/hello.js" [] ["node_modules"; "notes"]
                   _ eq_refl eq_refl eq_refl _ eq_refl _ _)); try discriminate.
  intros file' e' [<-|[<-|[]]]; discriminate.
Defined.

(** ** The module cache *)

(** X9: after the eviction callback of a function has run, the next
    [require] of its file under the same [module.paths] evaluates the file
    again, whatever was cached before: what it returns is what the file
    evaluates to now. *)
Theorem evicted_module_is_loaded_afresh (rt : Runtime) (fn : entry)
    (g : global) (filename : string) :
  require_resolve rt [moduleDir fn] (functionPath fn) = Some filename ->
  snd (require rt (VString (functionPath fn))
         (set_module_paths [moduleDir fn] (fst (clearCache rt fn g))))
  = load_module rt [moduleDir fn] filename.
Proof.
  intros Hres. unfold clearCache, require. cbn. rewrite Hres. cbn.
  rewrite lookup_delete_eq.
  now destruct (load_module rt [moduleDir fn] filename).
Qed.

Lemma evicted_module_is_loaded_afresh_witness :
  snd (require (example_runtime idle) (VString "/site/functions/hello.js")
         (set_module_paths [VString "/site"]
            (fst (clearCache (example_runtime idle)
                    {| functionPath := "/site/functions/hello.js";
                       moduleDir := VString "/site" |}
                    {| module_paths := [];
                       require_cache :=
                         {[ "/site/functions/hello.js" := VString "stale" ]};
                       required := [] |}))))
  = Ok (VObject [("handler", VFunction 0)]).
Proof.
  exact (evicted_module_is_loaded_afresh (example_runtime idle)
           {| functionPath := "/site/functions/hello.js";
              moduleDir := VString "/site" |}
           {| module_paths := [];
              require_cache :=
                {[ "/site/functions/hello.js" := VString "stale" ]};
              required := [] |}
           "/site/functions/hello.js" eq_refl).
Defined.

(** X10: the eviction callback removes the cache entry of its own file and
    no other, records nothing else, and changes nothing at all when the file
    was not cached. *)
Theorem eviction_touches_one_entry (rt : Runtime) (fn : entry) (g : global)
    (filename : string) :
  require_resolve rt [moduleDir fn] (functionPath fn) = Some filename ->
  snd (clearCache rt fn g) = Ok tt /\
  require_cache (fst (clearCache rt fn g)) !! filename = None /\
  (forall other, other <> filename ->
     require_cache (fst (clearCache rt fn g)) !! other
       = require_cache g !! other) /\
  required (fst (clearCache rt fn g)) = required g /\
  (require_cache g !! filename = None -> fst (clearCache rt fn g) = g).
Proof.
  intros Hres. rewrite (clearCache_restores_paths rt fn g filename Hres).
  cbn [fst snd require_cache required].
  split; [reflexivity|]. split; [apply lookup_delete_eq|].
  split; [intros other Hne; now apply lookup_delete_ne|].
  split; [reflexivity|].
  intros Hmiss. destruct g as [paths cache log]. cbn in *.
  f_equal. now apply delete_id.
Qed.

Lemma eviction_touches_one_entry_witness :
  fst (clearCache (example_runtime idle)
         {| functionPath := "/site/functions/hello.js";
            moduleDir := VString "/site" |} example_global)
  = example_global.
Proof.
  destruct (eviction_touches_one_entry (example_runtime idle)
              {| functionPath := "/site/functions/hello.js";
                 moduleDir := VString "/site" |} example_global
              "/site/functions/hello.js" eq_refl) as (_ & _ & _ & _ & same).
  apply same. reflexivity.
Defined.

(** ** The completion callback, case by case *)



(** X12: the status check tests the numeric conversion of [statusCode] but
    the response gets the value as the handler gave it: a string such as
    "201" passes when its conversion is a status the response can send (100
    to 999) and is assigned to [response.statusCode] unconverted; with
    headers that [setHeader] accepts the callback then returns normally. *)
Theorem status_is_copied_unconverted (rt : Runtime) (err : value)
    (props : list (string * value)) (statusCode : value) (text : string) :
  truthy err = false ->
  lookup_prop "statusCode" props = Some statusCode ->
  number_truthy (Number rt statusCode) = true ->
  sendable rt statusCode = true ->
  forallb (fun kv => header_accepted rt (fst kv) (snd kv))
    (for_in rt (default VUndefined (lookup_prop "headers" props))) = true ->
  lookup_prop "body" props = Some (VString text) ->
  statuses (fst (createCallback rt err (VObject props))) = [statusCode] /\
  snd (createCallback rt err (VObject props)) = Ok tt.
Proof.
  intros Herr Hsc Hnum Hsend Hhead Hbody.
  rewrite (createCallback_accepts rt err (VObject props) statusCode text);
    cbn [get]; try rewrite Hsc; try rewrite Hbody; auto.
  cbn [fst snd]. now rewrite statuses_success.
Qed.

Lemma status_is_copied_unconverted_witness :
  statuses
    (fst (createCallback (example_runtime idle) VNull
            (VObject [("statusCode", VString "201"); ("body", VString "")])))
  = [VString "201"].
Proof.
  apply (status_is_copied_unconverted (example_runtime idle) VNull
           [("statusCode", VString "201"); ("body", VString "")]
           (VString "201") ""); reflexivity.
Defined.



(** ** Invocations, completion by completion *)

Lemma settle_unattached (rt : Runtime) (evs : list event) :
  forallb is_settlement evs = true ->
  forall sent, settle rt false sent evs = ([], []).
Proof.
  induction evs as [|ev evs IH]; [reflexivity|].
  cbn [forallb]. intros H sent. apply andb_true_iff in H as [Hev Hevs].
  cbn [settle].
  destruct ev as [err res|[data|err]]; [discriminate| |];
    cbn [fire ret existsb]; now rewrite (IH Hevs).
Qed.



(** X16: a value the handler returns is used only if it is a promise: a
    handler that returns anything else and never calls back is never
    answered, and nothing is thrown. *)
Theorem plain_return_value_is_ignored (rt : Runtime) (g : global)
    (b : behaviour) (v : value) :
  sync_calls b = [] ->
  returned b = Ok v ->
  is_thenable v = false ->
  forallb is_settlement (later b) = true ->
  final_response (complete rt (run_handler rt g b)) = [] /\
  final_thrown (complete rt (run_handler rt g b)) = None /\
  final_uncaught (complete rt (run_handler rt g b)) = [].
Proof.
  intros Hcalls Hret Hthen Hlater.
  destruct (guard_passes_without_early_call rt g b v Hcalls Hret)
    as (Hthrown & Hatt & Hlat).
  assert (Hops : inv_response (run_handler rt g b) = []).
  { unfold run_handler. rewrite Hcalls, Hret. reflexivity. }
  unfold complete. rewrite Hatt, Hlat. unfold promiseCallback.
  rewrite Hthen, andb_false_r, (settle_unattached rt _ Hlater).
  cbn. now rewrite Hthrown, Hops.
Qed.

Lemma plain_return_value_is_ignored_witness :
  final_response
    (complete (example_runtime returns_plainly)
       (run_handler (example_runtime returns_plainly) example_global
          returns_plainly))
  = [].
Proof.
  apply (plain_return_value_is_ignored (example_runtime returns_plainly)
           example_global returns_plainly (ok_result "returned"));
    reflexivity.
Defined.

(** X17: a promise the handler returns without having called back completes
    the invocation exactly as the callback would: fulfilment with [data] is
    answered as [callback(null, data)], rejection with [err] as
    [callback(err, null)]. *)
Theorem promise_completes_like_callback (rt : Runtime) (g : global)
    (promise : value) :
  is_thenable promise = true ->
  (forall data,
      final_response
        (complete rt
           (run_handler rt g
              {| sync_calls := [];
                 returned := Ok promise;
                 later := [Settled (Fulfilled data)] |}))
      = fst (createCallback rt VNull data)) /\
  (forall err,
      final_response
        (complete rt
           (run_handler rt g
              {| sync_calls := [];
                 returned := Ok promise;
                 later := [Settled (Rejected err)] |}))
      = fst (createCallback rt err VNull)).
Proof.
  intros Hthen.
  assert (Hatt : promiseCallback promise = true).
  { unfold promiseCallback. rewrite Hthen. now destruct promise. }
  assert (Hrun : forall evs,
             run_handler rt g
               {| sync_calls := []; returned := Ok promise; later := evs |}
             = {| inv_global := g;
                  inv_response := [];
                  inv_thrown := None;
                  inv_attached := true;
                  inv_later := evs |}).
  { intros evs. unfold run_handler. cbn [sync_calls returned later].
    now rewrite Hatt. }
  split; intros x; rewrite Hrun; unfold complete;
    cbn [inv_attached inv_later inv_response inv_global inv_thrown settle fire
         existsb].
  - fold (createCallback rt VNull x).
    destruct (createCallback rt VNull x) as [ops r]. cbn. apply app_nil_r.
  - fold (createCallback rt x VNull).
    destruct (createCallback rt x VNull) as [ops r]. cbn. apply app_nil_r.
Qed.

Lemma promise_completes_like_callback_witness :
  final_response
    (complete (example_runtime idle)
       (run_handler (example_runtime idle) example_global
          {| sync_calls := [];
             returned := Ok (VPromise 7);
             later := [Settled (Rejected (Error "no such user"))] |}))
  = failure (example_runtime idle) "Error: no such user".
Proof.
  destruct (promise_completes_like_callback (example_runtime idle)
              example_global (VPromise 7) eq_refl) as (_ & rejected).
  exact (rejected (Error "no such user")).
Defined.



(** ** The request handler, outcome by outcome *)

Lemma lookup_function_own (functions : registry) (key : string) (e : entry) :
  own functions !! key = Some e ->
  lookup_function functions key = VObject (entry_props e).
Proof. intros H. unfold lookup_function. now rewrite H. Qed.

Lemma handleErr_defined (rt : Runtime) (err : value) :
  err <> VUndefined -> err <> VNull ->
  handleErr rt err = (failure rt (ToString rt err), Ok tt).
Proof. intros Hu Hn. destruct err; try reflexivity; contradiction. Qed.

(** The request handler for a registered function, up to the load. *)
Lemma createHandler_own (rt : Runtime) (functions : registry) (req : request)
    (g : global) (e : entry) :
  own functions !! property_key (handler_name (req_path req)) = Some e ->
  createHandler rt functions req g
  = match try_load rt (VString (functionPath e)) (moduleDir e)
            (module_paths g) g with
    | (g', Throw error) =>
        finished (set_module_paths (module_paths g) g') (handleErr rt error) []
    | (g', Ok handler) =>
        run_handler rt g'
          (call rt (default VUndefined (get handler "handler"))
             (lambdaRequest rt req) (invocationContext rt req))
    end.
Proof.
  intros Hown. unfold createHandler, handler_name in *.
  now rewrite (lookup_function_own _ _ _ Hown).
Qed.



(** X20: a module that loads but whose [handler] export is not a function is
    answered with the 500 "function <path> must export a function named
    handler"; nothing of the module is called and [module.paths] is
    restored. *)
Theorem missing_export_is_answered (rt : Runtime) (functions : registry)
    (req : request) (g g' : global) (e : entry) (exports h : value) :
  own functions !! property_key (handler_name (req_path req)) = Some e ->
  require rt (VString (functionPath e)) (set_module_paths [moduleDir e] g)
    = (g', Ok exports) ->
  get exports "handler" = Some h ->
  is_function h = false ->
  inv_response (createHandler rt functions req g)
    = failure rt ("Error: function " +:+ functionPath e +:+
                  " must export a function named handler") /\
  inv_thrown (createHandler rt functions req g) = None /\
  inv_later (createHandler rt functions req g) = [] /\
  inv_attached (createHandler rt functions req g) = false /\
  module_paths (inv_global (createHandler rt functions req g))
    = module_paths g.
Proof.
  intros Hown Hreq Hget Hfun. rewrite (createHandler_own _ _ _ _ _ Hown).
  unfold try_load, read. rewrite Hreq, Hget, Hfun.
  rewrite handleErr_defined by discriminate. easy.
Qed.

Lemma missing_export_is_answered_witness :
  inv_response
    (createHandler misexporting_runtime example_functions
       (example_request "/hello") example_global)
  = failure misexporting_runtime
      "Error: function /site/functions/hello.js must export a function named handler".
Proof.
  refine (proj1 (missing_export_is_answered misexporting_runtime
                   example_functions (example_request "/hello") example_global
                   _ {| functionPath := "/site/functions/hello.js";
                        moduleDir := VString "/site" |}
                   (VObject [("handler", VString "not yet")])
                   (VString "not yet") eq_refl eq_refl eq_refl eq_refl)).
Defined.

(** X21: one whole invocation leaves [module.paths] as it found it,
    whatever the request, the registry and the handler: not found, failed
    load, or a handler that was called. *)
Theorem invocation_restores_module_paths (rt : Runtime) (functions : registry)
    (req : request) (g : global) :
  module_paths (final_global (invoke rt functions req g)) = module_paths g.
Proof.
  unfold invoke, complete.
  destruct (settle rt _ _) as [ops uncaught]. cbn [final_global].
  apply createHandler_restores_paths.
Qed.

(** X22: when no function named "__proto__" has been registered (so that
    [functions] inherits from [Object.prototype] only), a request whose
    handler name is not registered, is not "__proto__" and is not a member
    of [Object.prototype] is answered 404 "Function not found...", whatever
    its method, headers and body; nothing is required, nothing is called,
    and the module state is untouched. *)
Theorem unknown_name_is_not_found (rt : Runtime) (functions : registry)
    (req : request) (g : global) :
  own functions !! property_key (handler_name (req_path req)) = None ->
  proto functions = None ->
  property_key (handler_name (req_path req)) <> "__proto__" ->
  ~ In (property_key (handler_name (req_path req))) object_prototype_names ->
  invoke rt functions req g
  = {| final_global := g;
       final_response := not_found;
       final_thrown := None;
       final_uncaught := [] |}.
Proof.
  intros Hown Hproto Hkey Hnames. unfold invoke.
  rewrite unknown_name_is_404; [reflexivity|].
  now apply lookup_function_unknown.
Qed.

Lemma unknown_name_is_not_found_witness :
  invoke (example_runtime idle) example_functions
    {| req_path := "/.netlify/functions/nobody";
       req_method := "POST";
       req_url := "/.netlify/functions/nobody?x=1";
       req_headers := [("content-type", "text/plain")];
       req_body := VString "payload" |}
    example_global
  = {| final_global := example_global;
       final_response := not_found;
       final_thrown := None;
       final_uncaught := [] |}.
Proof.
  apply unknown_name_is_not_found;
    [vm_compute; reflexivity | reflexivity | discriminate |].
  cbn. intuition discriminate.
Defined.

(** ** [assignLoudly] *)

Lemma strict_equal_undefined (same_object : value -> value -> bool)
    (v : value) :
  strict_equal same_object v VUndefined = is_undefined v.
Proof. destruct v as [| | |[|]| | | | | | |]; reflexivity. Qed.

(** X23: [assignLoudly] throws exactly when the fallback is undefined;
    otherwise it returns the optional value untouched and tells nobody when
    that value is defined (be it 0, null or an empty string), and returns
    the fallback and tells the user about it, once, when the optional value
    is undefined: it never returns undefined, and the comparison of the two
    values decides nothing. *)
Theorem assignLoudly_falls_back_on_undefined_only
    (same_object : value -> value -> bool) (optionalValue fallbackValue : value) :
  (fallbackValue = VUndefined ->
   assignLoudly same_object optionalValue fallbackValue
     = ([], Throw (Error "must have a fallbackValue"))) /\
  (fallbackValue <> VUndefined -> optionalValue = VUndefined ->
   assignLoudly same_object optionalValue fallbackValue
     = ([fallbackValue], Ok fallbackValue)) /\
  (fallbackValue <> VUndefined -> optionalValue <> VUndefined ->
   assignLoudly same_object optionalValue fallbackValue
     = ([], Ok optionalValue)) /\
  (forall v,
      snd (assignLoudly same_object optionalValue fallbackValue) = Ok v ->
      v <> VUndefined).
Proof.
  unfold assignLoudly. rewrite !strict_equal_undefined.
  split; [now intros ->|]. split; [|split].
  - intros Hfb ->. rewrite strict_equal_undefined.
    destruct fallbackValue; try reflexivity; contradiction.
  - intros Hfb Hopt.
    destruct fallbackValue; try contradiction;
      destruct optionalValue; try contradiction; cbn;
      rewrite ?andb_false_r; reflexivity.
  - destruct (is_undefined fallbackValue) eqn:Efb; [discriminate|].
    destruct (is_undefined optionalValue) eqn:Eopt.
    + destruct optionalValue; try discriminate.
      rewrite strict_equal_undefined, Efb. cbn. intros v [= <-].
      intros ->. discriminate.
    + rewrite andb_false_r. intros v [= <-]. intros ->. discriminate.
Qed.

Lemma assignLoudly_falls_back_on_undefined_only_witness :
  assignLoudly (fun _ _ => false) VUndefined (VNumber (Num 34567))
  = ([VNumber (Num 34567)], Ok (VNumber (Num 34567))).
Proof.
  destruct (assignLoudly_falls_back_on_undefined_only (fun _ _ => false)
              VUndefined (VNumber (Num 34567))) as (_ & fallback & _).
  apply fallback; [discriminate|reflexivity].
Defined.

(** ** From the request to the handler and back *)

(** X24: for a registered function whose module loads and exports a
    function [handler], the request handler requires the module once, under
    [module.paths] swapped to the module directory of the function, restores
    [module.paths], and calls the handler once, with the translated request
    (which keeps the path of the request, prefix included) and the context;
    what happens then is what the handler does with the callback. *)
Theorem loaded_handler_is_called (rt : Runtime) (functions : registry)
    (req : request) (g g' : global) (e : entry) (exports h : value) :
  own functions !! property_key (handler_name (req_path req)) = Some e ->
  require rt (VString (functionPath e)) (set_module_paths [moduleDir e] g)
    = (g', Ok exports) ->
  get exports "handler" = Some h ->
  is_function h = true ->
  createHandler rt functions req g
    = run_handler rt (set_module_paths (module_paths g) g')
        (call rt h (lambdaRequest rt req) (invocationContext rt req)) /\
  required g' = required g ++ [VString (functionPath e)] /\
  get (lambdaRequest rt req) "path" = Some (VString (req_path req)).
Proof.
  intros Hown Hreq Hget Hfun. rewrite (createHandler_own _ _ _ _ _ Hown).
  unfold try_load, read. rewrite Hreq, Hget, Hfun.
  split; [now rewrite Hget|]. split.
  - unfold require in Hreq. cbn in Hreq.
    destruct (require_resolve rt [moduleDir e] (functionPath e)) as [f|];
      [|discriminate].
    destruct (require_cache g !! f); [now injection Hreq as <- _|].
    destruct (load_module rt [moduleDir e] f); [|discriminate].
    now injection Hreq as <- _.
  - unfold lambdaRequest. now destruct (translate_body (req_body req)).
Qed.

Lemma loaded_handler_is_called_witness :
  inv_response
    (createHandler (example_runtime calls_back_twice) example_functions
       (example_request "/hello") example_global)
  = responses (example_runtime calls_back_twice)
      [(VNull, ok_result "first"); (VNull, ok_result "second")].
Proof.
  rewrite (proj1 (loaded_handler_is_called (example_runtime calls_back_twice)
                    example_functions (example_request "/hello")
                    example_global _
                    {| functionPath := "/site/functions/hello.js";
                       moduleDir := VString "/site" |}
                    (VObject [("handler", VFunction 0)]) (VFunction 0)
                    eq_refl eq_refl eq_refl eq_refl)).
  reflexivity.
Defined.

(** X25: a body passes through the bridge unchanged: when the handler
    answers with the body and the [isBase64Encoded] flag of the request it
    was given, the response carries the bytes of a Buffer body (encoded on
    the way in, decoded on the way out) and the text of a string body. *)
Theorem echoed_body_is_the_inbound_body (rt : Runtime) (req : request) :
  (forall bs, req_body req = VBuffer bs ->
     bodies (fst (createCallback rt VNull (echo_result (lambdaRequest rt req))))
       = [VBuffer bs]) /\
  (forall s, req_body req = VString s ->
     bodies (fst (createCallback rt VNull (echo_result (lambdaRequest rt req))))
       = [VString s]).
Proof.
  split.
  - intros bs Hbody.
    rewrite (createCallback_accepts rt VNull _ (VNumber (Num 200))
               (Base64.encode bs));
      try reflexivity;
      try (unfold echo_result, lambdaRequest; rewrite Hbody; reflexivity).
    cbn [fst]. rewrite bodies_success.
    unfold echo_result, lambdaRequest. rewrite Hbody. cbn.
    now rewrite decode_encode.
  - intros s Hbody. unfold echo_result, lambdaRequest. rewrite Hbody.
    reflexivity.
Qed.

Lemma echoed_body_is_the_inbound_body_witness :
  bodies
    (fst (createCallback (example_runtime idle) VNull
            (echo_result
               (lambdaRequest (example_runtime idle)
                  {| req_path := "/hello";
                     req_method := "POST";
                     req_url := "/hello";
                     req_headers := [];
                     req_body := VBuffer [x00; xff; x10]%byte |}))))
  = [VBuffer [x00; xff; x10]%byte].
Proof.
  destruct (echoed_body_is_the_inbound_body (example_runtime idle)
              {| req_path := "/hello";
                 req_method := "POST";
                 req_url := "/hello";
                 req_headers := [];
                 req_body := VBuffer [x00; xff; x10]%byte |}) as (binary & _).
  apply binary. reflexivity.
Defined.
